(** * Sample-sheet and index consistency checks of digestiflow-server

    A shallow embedding of [FlowCell.get_index_errors],
    [FlowCell.get_sample_sheet_errors], [Library.get_barcode_seq] and
    [Library.get_barcode_seq2] from [src/flowcells/models.py], together
    with the properties the specification states about them.

    Python dictionaries are modelled as insertion-ordered association
    lists with unique keys, Python sets as [gset], [None] as [None] of
    an [option], and a [KeyError] as the [None] result of a function
    that returns an [option].  The sample-sheet checker is parametric
    in [pretty_range], which wraps a package outside the repository;
    the [lru_cache] decorator of both checkers is modelled as explicit
    state. *)

From Stdlib Require Import ZArith Ascii String List.
From stdpp Require Import base decidable option list sorting strings pretty gmap.

Local Open Scope string_scope.
Local Open Scope list_scope.
Local Open Scope Z_scope.

(** ** Python dictionaries *)

Module Dict.
Section dict.
Context {K V : Type} `{EqDecision K}.

(** [d.get(k)], and [d[k]] where [None] stands for [KeyError]. *)
Fixpoint dget (k : K) (d : list (K * V)) : option V :=
match d with
| [] => None
| (k', v) :: d' => if decide (k = k') then Some v else dget k d'
end.

(** The value stored under [k] becomes [f v]; a missing key is first
  created with the value [dflt], at the end of the dictionary.  This
  is [d.setdefault(k, dflt)] followed by an in-place update of the
  value it returns. *)
Fixpoint dupd (k : K) (dflt : V) (f : V -> V) (d : list (K * V))
: list (K * V) :=
match d with
| [] => [(k, f dflt)]
| (k', v) :: d' =>
    if decide (k = k') then (k', f v) :: d'
    else (k', v) :: dupd k dflt f d'
end.

(** [d[k] = v] *)
Definition dset (k : K) (v : V) (d : list (K * V)) : list (K * V) :=
dupd k v (fun _ => v) d.

(** [d.setdefault(k, v)], the returned value being dropped. *)
Definition setdefault (k : K) (v : V) (d : list (K * V)) : list (K * V) :=
dupd k v (fun x => x) d.

Definition dkeys (d : list (K * V)) : list K := d.*1.
Definition dvalues (d : list (K * V)) : list V := d.*2.
End dict.
End Dict.
Import Dict.

(** ** Python strings and truth values *)

(** Truth value of an optional string: [None] and the empty string are
    false. *)
Definition truthy (o : option string) : bool :=
  match o with
  | Some s => negb (String.eqb s "")
  | None => false
  end.

(** [o or "-"] *)
Definition or_dash (o : option string) : string :=
  match o with
  | Some s => if String.eqb s "" then "-" else s
  | None => "-"
  end.

(** [all(s == "N" for s in seq)] *)
Fixpoint all_N (seq : string) : bool :=
  match seq with
  | EmptyString => true
  | String c rest => Ascii.eqb c "N"%char && all_N rest
  end.

(** [str(n)] for an integer. *)
Definition str_of_int (n : Z) : string := pretty n.

(** The character class [[a-zA-Z0-9_-]]. *)
Definition name_char (c : ascii) : bool :=
  let n := N_of_ascii c in
  ((97 <=? n) && (n <=? 122))%N || ((65 <=? n) && (n <=? 90))%N
  || ((48 <=? n) && (n <=? 57))%N || (n =? 95)%N || (n =? 45)%N.

(** [re.match("^[a-zA-Z0-9_-]+$", s)] without flags: one or more
    characters of the class from the start of the string, followed by
    the end of the string; Python's [$] also matches just before a
    newline that ends the string.  [seen] tells whether a character of
    the class has been consumed. *)
Fixpoint name_re_from (seen : bool) (s : string) : bool :=
  match s with
  | EmptyString => seen
  | String c rest =>
      if name_char c then name_re_from true rest
      else seen && Ascii.eqb c "010"%char && String.eqb rest ""
  end.

Definition name_re_match (s : string) : bool := name_re_from false s.

(** ** Data model *)

(** [BarcodeSetEntry] is declared in [barcodes.models]; the checks read
    its [sequence] only. *)
Record BarcodeSetEntry := { sequence : string }.

(** [sodar_uuid] values, as 128-bit numbers. *)
Abbreviation uuid := N (only parsing).

Record Library := {
  sodar_uuid : uuid;
  name : string;
  barcode : option BarcodeSetEntry;
  barcode_seq : option string;
  barcode2 : option BarcodeSetEntry;
  barcode_seq2 : option string;
  lane_numbers : list Z
}.

Record LaneIndexHistogram := {
  lane : Z;
  index_read_no : Z;
  sample_size : Z;
  histogram : list (string * Z)
}.

Record FlowCell := {
  pk : Z;
  num_lanes : Z;
  libraries : list Library;
  index_histograms : list LaneIndexHistogram
}.

(** [Library.get_barcode_seq] *)
Definition get_barcode_seq (self : Library) : option string :=
  match barcode self with
  | Some b => Some (sequence b)
  | None => barcode_seq self
  end.

(** [Library.get_barcode_seq2] *)
Definition get_barcode_seq2 (self : Library) : option string :=
  match barcode2 self with
  | Some b => Some (sequence b)
  | None => barcode_seq2 self
  end.

(** ** Helpers shared by the checkers *)

(** A loop whose body may raise: the first [None] ends it. *)
Fixpoint foldM {A B : Type} (f : B -> A -> option B) (l : list A) (b : B)
  : option B :=
  match l with
  | [] => Some b
  | x :: l' =>
      match f b x with
      | Some b' => foldM f l' b'
      | None => None
      end
  end.

(** ["s" if len(lanes) > 1 else ""] *)
Definition plural (lanes : list Z) : string :=
  if (1 <? length lanes)%nat then "s" else "".

(** The sample-sheet error report: library UUID to field name to list
    of messages. *)
Abbreviation report := (list (uuid * list (string * list string))) (only parsing).

(** The index error report: (lane, index read, sequence) to list of
    messages. *)
Abbreviation index_report := (list ((Z * Z * string) * list string)) (only parsing).

(** [result.setdefault(u, {}).setdefault(field, []).append(msg)] *)
Definition add_error (u : uuid) (field msg : string) (result : report)
  : report :=
  dupd u [] (dupd field [] (fun errs => errs ++ [msg])) result.

(** [result.setdefault(u, {}).setdefault(field, msgs)] *)
Definition default_error (u : uuid) (field : string) (msgs : list string)
  (result : report) : report :=
  dupd u [] (setdefault field msgs) result.

Definition invalid_name_msg : string :=
  "Library names may only contain alphanumeric characters, hyphens, and underscores".

Definition index_msg (seq : string) (lane read_no : Z) : string :=
  "found barcode " +:+ seq +:+ " on lane " +:+ str_of_int lane
  +:+ " and index read " +:+ str_of_int read_no
  +:+ " in BCLs but not in sample sheet".

(** ** [FlowCell.get_index_errors] *)

(** The body of the loop over the libraries of a lane: the sequence a
    library adds to [expected_seqs]. *)
Definition expect_library (read_no : Z) (expected_seqs : gset string)
  (library : Library) : gset string :=
  let '(bc, bc_seq) :=
    if read_no =? 0 then (barcode library, barcode_seq library)
    else (barcode2 library, barcode_seq2 library) in
  match bc with
  | Some b => {[ sequence b ]} ∪ expected_seqs
  | None =>
      match bc_seq with
      | Some s => if truthy bc_seq then {[ s ]} ∪ expected_seqs
                  else expected_seqs
      | None => expected_seqs
      end
  end.

(** [self.libraries.filter(lane_numbers__contains=[lane])] *)
Definition libraries_on (lane : Z) (libs : list Library) : list Library :=
  filter (fun library => lane ∈ lane_numbers library) libs.

Definition expected_seqs_of (libs : list Library) (hist : LaneIndexHistogram)
  : gset string :=
  fold_left (expect_library (index_read_no hist))
    (libraries_on (lane hist) libs) ∅.

(** The body of the loop over [hist.histogram.items()]. *)
Definition check_observed (hist : LaneIndexHistogram)
  (expected_seqs : gset string) (result : index_report)
  (item : string * Z) : index_report :=
  let seq := item.1 in
  if all_N seq then result
  else
    let errors :=
      if bool_decide (seq ∈ expected_seqs) then []
      else [index_msg seq (lane hist) (index_read_no hist)] in
    match errors with
    | [] => result
    | _ => dset (lane hist, index_read_no hist, seq) errors result
    end.

Definition check_histogram (libs : list Library) (result : index_report)
  (hist : LaneIndexHistogram) : index_report :=
  fold_left (check_observed hist (expected_seqs_of libs hist))
    (histogram hist) result.

(** The body of [get_index_errors], below its [lru_cache] decorator. *)
Definition get_index_errors (self : FlowCell) : index_report :=
  fold_left (check_histogram (libraries self)) (index_histograms self) [].

(** ** [FlowCell.get_sample_sheet_errors] *)

Section sample_sheet.
(** [pretty_range] wraps [pagerange.PageRange(value).range], a package
    outside the repository: the checker is parametric in it. *)
Variable pretty_range : list Z -> string.

Definition lane_msg (bad_lanes : list Z) : string :=
  "Flow cell does not have lane" +:+ plural bad_lanes +:+ " #"
  +:+ pretty_range bad_lanes.

Definition name_msg (library_name : string) (lanes : list Z) : string :=
  "Library name " +:+ library_name +:+ " is not unique for lane"
  +:+ plural lanes +:+ " " +:+ pretty_range lanes.

Definition barcode_msg (library : Library) (lanes : list Z) : string :=
  "Barcode combination " +:+ or_dash (get_barcode_seq library) +:+ "/"
  +:+ or_dash (get_barcode_seq2 library) +:+ " is not unique for lane"
  +:+ plural lanes +:+ " " +:+ pretty_range lanes.

(** The dictionaries the first loop fills. *)
Record gathered := {
  g_result : report;
  g_by_uuid : list (uuid * Library);
  g_by_name : list ((Z * string) * list Library);
  g_by_barcode : list ((Z * option string) * list (uuid * Library));
  g_by_barcode2 : list ((Z * option string) * list (uuid * Library))
}.

(** [sorted(no for no in library.lane_numbers if no < 1 or no > num_lanes)] *)
Definition invalid_lanes (n_lanes : Z) (library : Library) : list Z :=
  merge_sort Z.le
    (filter (fun no => no < 1 \/ no > n_lanes) (lane_numbers library)).

(** The body of [for lane in library.lane_numbers]. *)
Definition gather_lane (library : Library) (st : gathered) (lane : Z)
  : gathered :=
  {| g_result := g_result st;
     g_by_uuid := g_by_uuid st;
     g_by_name :=
       dupd (lane, name library) [] (fun l => l ++ [library])
         (g_by_name st);
     g_by_barcode :=
       dupd (lane, get_barcode_seq library) []
         (dset (sodar_uuid library) library) (g_by_barcode st);
     g_by_barcode2 :=
       dupd (lane, get_barcode_seq2 library) []
         (dset (sodar_uuid library) library) (g_by_barcode2 st) |}.

Definition check_name (library : Library) (result : report) : report :=
  if name_re_match (name library) then result
  else add_error (sodar_uuid library) "name" invalid_name_msg result.

Definition check_lanes (n_lanes : Z) (library : Library) (result : report)
  : report :=
  match invalid_lanes n_lanes library with
  | [] => result
  | bad_lanes =>
      default_error (sodar_uuid library) "lane" [lane_msg bad_lanes] result
  end.

(** The body of [for library in self.libraries.all()]. *)
Definition gather_library (n_lanes : Z) (st : gathered) (library : Library)
  : gathered :=
  let st1 :=
    {| g_result :=
         check_lanes n_lanes library (check_name library (g_result st));
       g_by_uuid := dset (sodar_uuid library) library (g_by_uuid st);
       g_by_name := g_by_name st;
       g_by_barcode := g_by_barcode st;
       g_by_barcode2 := g_by_barcode2 st |} in
  fold_left (gather_lane library)
    (lane_numbers library) st1.

Definition gather (n_lanes : Z) (libs : list Library) : gathered :=
  fold_left (gather_library n_lanes) libs
    {| g_result := []; g_by_uuid := []; g_by_name := [];
       g_by_barcode := []; g_by_barcode2 := [] |}.

(** [bad_lanes.setdefault(library.sodar_uuid, []).append(lane)] *)
Definition mark_lane (lane : Z) (bad_lanes : list (uuid * list Z))
  (library : Library) : list (uuid * list Z) :=
  dupd (sodar_uuid library) [] (fun lanes => lanes ++ [lane]) bad_lanes.

(** The body of [for (lane, name), libraries in by_name.items()]. *)
Definition name_clash (bad_lanes : list (uuid * list Z))
  (item : (Z * string) * list Library) : list (uuid * list Z) :=
  let '((lane, _), libs) := item in
  if bool_decide (length libs ≠ 1%nat)
  then fold_left (mark_lane lane) libs bad_lanes
  else bad_lanes.

Definition name_bad_lanes (by_name : list ((Z * string) * list Library))
  : list (uuid * list Z) :=
  fold_left name_clash by_name [].

(** The body of the loop that reports the name clashes;
    [by_uuid[sodar_uuid]] raises [KeyError] on a missing key. *)
Definition report_name (by_uuid : list (uuid * Library)) (result : report)
  (item : uuid * list Z) : option report :=
  let '(u, lanes) := item in
  match dget u by_uuid with
  | Some library =>
      Some (add_error u "name" (name_msg (name library) lanes) result)
  | None => None
  end.

(** [(set(libraries.keys()) & set(other_libraries.keys()))
     - set([library.sodar_uuid])] *)
Definition clashes (libs other_libraries : list (uuid * Library))
  (library : Library) : gset uuid :=
  (list_to_set (dkeys libs) ∩ list_to_set (dkeys other_libraries))
  ∖ {[ sodar_uuid library ]}.

(** The body of [for library in libraries.values()];
    [by_barcode2[...]] raises [KeyError] on a missing key. *)
Definition barcode_clash_library
  (by_barcode2 : list ((Z * option string) * list (uuid * Library)))
  (lane : Z) (libs : list (uuid * Library))
  (bad_lanes : list (uuid * list Z)) (library : Library)
  : option (list (uuid * list Z)) :=
  match dget (lane, get_barcode_seq2 library) by_barcode2 with
  | Some other_libraries =>
      if bool_decide (clashes libs other_libraries library ≠ ∅)
      then Some (mark_lane lane bad_lanes library)
      else Some bad_lanes
  | None => None
  end.

(** The body of [for (lane, seq), libraries in by_barcode.items()]. *)
Definition barcode_clash
  (by_barcode2 : list ((Z * option string) * list (uuid * Library)))
  (bad_lanes : list (uuid * list Z))
  (item : (Z * option string) * list (uuid * Library))
  : option (list (uuid * list Z)) :=
  let '((lane, _), libs) := item in
  foldM (barcode_clash_library by_barcode2 lane libs) (dvalues libs)
    bad_lanes.

Definition barcode_bad_lanes
  (by_barcode by_barcode2
     : list ((Z * option string) * list (uuid * Library)))
  : option (list (uuid * list Z)) :=
  foldM (barcode_clash by_barcode2) by_barcode [].

(** The fields a barcode clash of [library] is reported under. *)
Definition barcode_keys (library : Library) : list string :=
  if negb (truthy (get_barcode_seq library))
     && negb (truthy (get_barcode_seq2 library))
  then ["barcode"; "barcode2"]
  else
    (if truthy (get_barcode_seq library) then ["barcode"] else [])
    ++ (if truthy (get_barcode_seq2 library) then ["barcode2"] else []).

(** The body of the loop that reports the barcode clashes. *)
Definition report_barcode (by_uuid : list (uuid * Library))
  (result : report) (item : uuid * list Z) : option report :=
  let '(u, lanes) := item in
  match dget u by_uuid with
  | Some library =>
      Some (fold_left
              (fun result key =>
                 add_error u key (barcode_msg library lanes) result)
              (barcode_keys library) result)
  | None => None
  end.

(** The body of [get_sample_sheet_errors], below its [lru_cache]
    decorator; [None] stands for an exception. *)
Definition get_sample_sheet_errors (self : FlowCell) : option report :=
  let st := gather (num_lanes self) (libraries self) in
  match
    foldM (report_name (g_by_uuid st)) (name_bad_lanes (g_by_name st))
      (g_result st)
  with
  | Some result =>
      match barcode_bad_lanes (g_by_barcode st) (g_by_barcode2 st) with
      | Some bad_lanes => foldM (report_barcode (g_by_uuid st)) bad_lanes result
      | None => None
      end
  | None => None
  end.
End sample_sheet.

(** ** The [functools.lru_cache] decorator of the two checkers *)

Module LruCache.
(** [lru_cache()] keeps the [maxsize = 128] most recently used
    results.  The only argument of the decorated methods is [self]; a
    Django model instance is hashed and compared by its primary key,
    which therefore is the cache key.  The cache is kept most recently
    used first; a call that raises stores nothing. *)
Definition maxsize : nat := 128.

Definition cached {R : Type} (body : FlowCell -> option R)
  (self : FlowCell) (cache : list (Z * R)) : option R * list (Z * R) :=
  match dget (pk self) cache with
  | Some r =>
      (Some r, (pk self, r) :: filter (fun e => e.1 ≠ pk self) cache)
  | None =>
      match body self with
      | Some r => (Some r, take maxsize ((pk self, r) :: cache))
      | None => (None, cache)
      end
  end.
End LruCache.

(** What calls of the checkers can read or write: the flow cells as
    they are stored, with their libraries and histograms, and the two
    caches. *)
Record world := {
  w_cells : list FlowCell;
  w_index_cache : list (Z * list ((Z * Z * string) * list string));
  w_sheet_cache : list (Z * list (uuid * list (string * list string)))
}.

Section methods.
Variable pretty_range : list Z -> string.

(** [self.get_index_errors()] as it is called: through the cache. *)
Definition call_get_index_errors (self : FlowCell) (w : world)
  : option (list ((Z * Z * string) * list string)) * world :=
  let '(r, cache) :=
    LruCache.cached (fun self => Some (get_index_errors self))
      self (w_index_cache w) in
  (r, {| w_cells := w_cells w; w_index_cache := cache;
         w_sheet_cache := w_sheet_cache w |}).

(** [self.get_sample_sheet_errors()] as it is called. *)
Definition call_get_sample_sheet_errors (self : FlowCell) (w : world)
  : option (list (uuid * list (string * list string))) * world :=
  let '(r, cache) :=
    LruCache.cached (get_sample_sheet_errors pretty_range)
      self (w_sheet_cache w) in
  (r, {| w_cells := w_cells w; w_index_cache := w_index_cache w;
         w_sheet_cache := cache |}).
End methods.


(** ** Range formatting *)

(** Modelled from the spec: [pagerange.PageRange], the package behind
    [pretty_range], is not part of the repository.  The specification
    describes the result as a compact human-readable range, "2-4" for
    consecutive and "2,4" for non-consecutive numbers. *)
Fixpoint page_runs (first last : Z) (pages : list Z) : list (Z * Z) :=
  match pages with
  | [] => [(first, last)]
  | p :: rest =>
      if p =? last then page_runs first last rest
      else if p =? last + 1 then page_runs first p rest
      else (first, last) :: page_runs p p rest
  end.

Definition show_run (r : Z * Z) : string :=
  if r.1 =? r.2 then str_of_int r.1
  else str_of_int r.1 +:+ "-" +:+ str_of_int r.2.

Definition page_range (pages : list Z) : string :=
  match merge_sort Z.le pages with
  | [] => ""
  | p :: rest => String.concat "," (map show_run (page_runs p p rest))
  end.

(** ** Flow cells for the examples *)

Module Examples.
Definition lib (u : uuid) (nm : string) (b1 b2 : option string)
  (lanes : list Z) : Library :=
  {| sodar_uuid := u; name := nm; barcode := None; barcode_seq := b1;
     barcode2 := None; barcode_seq2 := b2; lane_numbers := lanes |}.

Definition cell (n : Z) (libs : list Library)
  (hists : list LaneIndexHistogram) : FlowCell :=
  {| pk := 1; num_lanes := n; libraries := libs;
     index_histograms := hists |}.
End Examples.
Import Examples.

(** * Vocabulary of the properties *)

(** ** Reading a report *)

(** The list a report holds for a library and a field; [None] when the
    report has no such entry. *)
Definition field_of (u : uuid) (field : string)
  (result : list (uuid * list (string * list string)))
  : option (list string) :=
  dget u result ≫= dget field.

(** ** Loops that fill a dictionary *)

(** A loop that files every event under its key: [upd e] updates the
    value of the key of [e], which starts as [dflt]. *)
Definition file_event {K V E : Type} `{EqDecision K} (key : E → K) (dflt : V)
  (upd : E → V → V) (d : list (K * V)) (e : E) : list (K * V) :=
  dupd (key e) dflt (upd e) d.

(** A loop that assigns [d[kf x] = vf x]. *)
Definition assign {K V X : Type} `{EqDecision K} (kf : X → K) (vf : X → V)
  (d : list (K * V)) (x : X) : list (K * V) :=
  dset (kf x) (vf x) d.

(** Mapping the values of a dictionary. *)
Definition vmap {K A B : Type} (g : A → B) (d : list (K * A))
  : list (K * B) :=
  (λ kv, (kv.1, g kv.2)) <$> d.

(** ** The index-histogram checker *)

(** The sequence of a library the checker expects for an index read:
    the first barcode for read 0, the second one for any other read. *)
Definition resolved_for (read_no : Z) (library : Library) : option string :=
  if read_no =? 0 then get_barcode_seq library else get_barcode_seq2 library.

(** What one histogram flags. *)
Definition flags (libs : list Library) (hist : LaneIndexHistogram)
  (k : Z * Z * string) : Prop :=
  lane hist = k.1.1 ∧ index_read_no hist = k.1.2
  ∧ k.2 ∈ dkeys (histogram hist) ∧ all_N k.2 = false
  ∧ k.2 ∉ expected_seqs_of libs hist.

(** Two histograms of the same lane and read that list the same
    observed sequences, whatever their counts and sample sizes. *)
Definition same_observed (h1 h2 : LaneIndexHistogram) : Prop :=
  lane h1 = lane h2 ∧ index_read_no h1 = index_read_no h2
  ∧ dkeys (histogram h1) = dkeys (histogram h2).

(** ** The first loop of the sample-sheet checker *)

(** A library on one of its lanes, once per listed lane number. *)
Definition lane_events (libs : list Library) : list (Z * Library) :=
  libs ≫= (λ library, (λ lane, (lane, library)) <$> lane_numbers library).

Definition name_key (e : Z * Library) : Z * string := (e.1, name e.2).

Definition barcode_key (e : Z * Library) : Z * option string :=
  (e.1, get_barcode_seq e.2).

Definition barcode2_key (e : Z * Library) : Z * option string :=
  (e.1, get_barcode_seq2 e.2).

Definition add_library (e : Z * Library) (l : list Library) : list Library :=
  l ++ [e.2].

Definition set_library (e : Z * Library) (d : list (uuid * Library))
  : list (uuid * Library) :=
  dset (sodar_uuid e.2) e.2 d.

(** The body of the first loop, as far as the report goes. *)
Definition check_library (pretty_range : list Z → string) (n_lanes : Z)
  (result : list (uuid * list (string * list string))) (library : Library)
  : list (uuid * list (string * list string)) :=
  check_lanes pretty_range n_lanes library (check_name library result).

(** What that body does to one entry of the report of the library. *)
Definition checked_field (pretty_range : list Z → string) (n_lanes : Z)
  (library : Library) (f : string) (o : option (list string))
  : option (list string) :=
  let o1 :=
    if decide (f = "name") then
      if name_re_match (name library) then o
      else Some (default [] o ++ [invalid_name_msg])
    else o in
  if decide (f = "lane") then
    match invalid_lanes n_lanes library with
    | [] => o1
    | bad_lanes => Some (default [lane_msg pretty_range bad_lanes] o1)
    end
  else o1.

(** ** The name clashes *)

(** The marks the second loop appends: a library and a lane, for every
    library filed under a (lane, name) pair that does not hold exactly
    one library. *)
Definition name_marks (d : list ((Z * string) * list Library))
  : list (uuid * Z) :=
  d ≫= (λ item,
          if bool_decide (length item.2 ≠ 1%nat)
          then (λ library, (sodar_uuid library, item.1.1)) <$> item.2
          else []).

Definition add_lane (e : uuid * Z) (lanes : list Z) : list Z :=
  lanes ++ [e.2].

(** The libraries filed under a (lane, name) pair. *)
Definition named_on (libs : list Library) (k : Z * string) : list Library :=
  (filter (λ e, name_key e = k) (lane_events libs)).*2.

(** The lanes the second loop collects for a library. *)
Definition name_lanes (pretty_range : list Z → string) (n_lanes : Z)
  (libs : list Library) (u : uuid) : list Z :=
  (filter (λ e, e.1 = u)
     (name_marks (g_by_name (gather pretty_range n_lanes libs)))).*2.

(** Another library of the flow cell has the name of [library] and is
    on [lane] too. *)
Definition name_clash_on (libs : list Library) (library : Library) (lane : Z)
  : Prop :=
  lane ∈ lane_numbers library
  ∧ ∃ other, other ∈ libs ∧ sodar_uuid other ≠ sodar_uuid library
      ∧ name other = name library ∧ lane ∈ lane_numbers other.

(** ** The barcode groups and clashes *)

(** The key of a group; [sel] is the barcode slot the group is about:
    [get_barcode_seq] for [by_barcode], [get_barcode_seq2] for
    [by_barcode2]. *)
Definition seq_key (sel : Library → option string) (e : Z * Library)
  : Z * option string :=
  (e.1, sel e.2).

Definition groups (libs : list Library) (sel : Library → option string)
  : list ((Z * option string) * list (uuid * Library)) :=
  fold_left (file_event (seq_key sel) [] set_library) (lane_events libs) [].

(** The dictionary filed under a (lane, sequence) pair. *)
Definition filed_on (libs : list Library) (sel : Library → option string)
  (k : Z * option string) : list (uuid * Library) :=
  fold_left (assign (λ e : Z * Library, sodar_uuid e.2) snd)
    (filter (λ e, seq_key sel e = k) (lane_events libs)) [].

(** The mark the third loop appends for a library of a group. *)
Definition barcode_mark
  (bb2 : list ((Z * option string) * list (uuid * Library)))
  (lane : Z) (d : list (uuid * Library)) (library : Library)
  : list (uuid * Z) :=
  if bool_decide
       (clashes d (default [] (dget (lane, get_barcode_seq2 library) bb2))
          library ≠ ∅)
  then [(sodar_uuid library, lane)]
  else [].

Definition barcode_marks
  (bb bb2 : list ((Z * option string) * list (uuid * Library)))
  : list (uuid * Z) :=
  bb ≫= (λ item, dvalues item.2 ≫= barcode_mark bb2 item.1.1 item.2).

(** The lanes the third loop collects for a library. *)
Definition barcode_lanes (pretty_range : list Z → string) (n_lanes : Z)
  (libs : list Library) (u : uuid) : list Z :=
  (filter (λ e, e.1 = u)
     (barcode_marks (g_by_barcode (gather pretty_range n_lanes libs))
        (g_by_barcode2 (gather pretty_range n_lanes libs)))).*2.

Definition barcode_bad (pretty_range : list Z → string) (n_lanes : Z)
  (libs : list Library) : list (uuid * list Z) :=
  fold_left (file_event fst [] add_lane)
    (barcode_marks (g_by_barcode (gather pretty_range n_lanes libs))
       (g_by_barcode2 (gather pretty_range n_lanes libs))) [].

(** Another library of the flow cell is on [lane] too and has the same
    first and the same second resolved sequence as [library]. *)
Definition barcode_clash_on (libs : list Library) (library : Library)
  (lane : Z) : Prop :=
  lane ∈ lane_numbers library
  ∧ ∃ other, other ∈ libs ∧ sodar_uuid other ≠ sodar_uuid library
      ∧ lane ∈ lane_numbers other
      ∧ get_barcode_seq other = get_barcode_seq library
      ∧ get_barcode_seq2 other = get_barcode_seq2 library.

(** The grouping key of a sequence as the specification words it: a
    sequence that is absent or empty is the one key "unset". *)
Definition spec_group (o : option string) : option string :=
  if truthy o then o else None.

(** A barcode collision as the specification words it: another library
    on the lane is in the same group for the first and for the second
    sequence.  It differs from [barcode_clash_on] in the grouping key
    only. *)
Definition spec_collision_on (libs : list Library) (library : Library)
  (lane : Z) : Prop :=
  lane ∈ lane_numbers library
  ∧ ∃ other, other ∈ libs ∧ sodar_uuid other ≠ sodar_uuid library
      ∧ lane ∈ lane_numbers other
      ∧ spec_group (get_barcode_seq other)
        = spec_group (get_barcode_seq library)
      ∧ spec_group (get_barcode_seq2 other)
        = spec_group (get_barcode_seq2 library).

(** ** The caches *)


(** ** Library names *)

(** A string over letters, digits, "_" and "-" only. *)
Fixpoint name_chars (s : string) : bool :=
  match s with
  | EmptyString => true
  | String c rest => name_char c && name_chars rest
  end.

Definition newline : string := String "010" "".

(** ** References and literal sequences *)

(** The library without the literal sequences that a reference
    shadows. *)
Definition effective (library : Library) : Library :=
  {| sodar_uuid := sodar_uuid library;
     name := name library;
     barcode := barcode library;
     barcode_seq :=
       match barcode library with
       | Some _ => None
       | None => barcode_seq library
       end;
     barcode2 := barcode2 library;
     barcode_seq2 :=
       match barcode2 library with
       | Some _ => None
       | None => barcode_seq2 library
       end;
     lane_numbers := lane_numbers library |}.

Definition effective_gathered (st : gathered) : gathered :=
  {| g_result := g_result st;
     g_by_uuid := vmap effective (g_by_uuid st);
     g_by_name := vmap (fmap effective) (g_by_name st);
     g_by_barcode := vmap (vmap effective) (g_by_barcode st);
     g_by_barcode2 := vmap (vmap effective) (g_by_barcode2 st) |}.

(** Decidable side conditions of the examples. *)
Ltac by_compute := apply (bool_decide_unpack _); vm_compute; exact I.

(** ** The shape of the sample-sheet report *)

(** The field names of a sample-sheet error report. *)
Definition report_fields : list string :=
  ["name"; "lane"; "barcode"; "barcode2"].

(** The fields of one library in a report. *)
Definition fields_ok (fields : list (string * list string)) : Prop :=
  NoDup (dkeys fields)
  ∧ ∀ f msgs, (f, msgs) ∈ fields → f ∈ report_fields ∧ msgs ≠ [].

(** A report as a Python dictionary of dictionaries of lists: no key
    twice, every key the UUID of a library of [libs], no dictionary and
    no list empty, every field one of [report_fields]. *)
Definition well_formed_report (libs : list Library)
  (result : list (uuid * list (string * list string))) : Prop :=
  NoDup (dkeys result)
  ∧ ∀ u fields, (u, fields) ∈ result →
      u ∈ sodar_uuid <$> libs ∧ fields ≠ [] ∧ NoDup (dkeys fields)
      ∧ ∀ f msgs, (f, msgs) ∈ fields → f ∈ report_fields ∧ msgs ≠ [].

(** ** [FlowCell.get_full_name] *)

(** A [datetime.date]. *)
Record date := { year : N; month : N; day : N }.

(** [SequencingMachine] is declared in [sequencers.models]; the name of
    a flow cell reads its [vendor_id] only. *)
Module SequencingMachine.
Record t := { vendor_id : string }.
End SequencingMachine.

(** The fields of [FlowCell] that [get_full_name] reads; [None] is
    Python's [None], as an instance that is not saved yet can have it.
    [sequencing_machine] is a foreign key declared [null=False]:
    reading it while it is unset raises [RelatedObjectDoesNotExist]. *)
Record FlowCellRun := {
  run_date : option date;
  sequencing_machine : option SequencingMachine.t;
  run_number : option N;
  slot : string;
  vendor_id : string;
  label : option string
}.

Fixpoint zeros (n : nat) : string :=
  match n with
  | O => ""
  | S n => String "0" (zeros n)
  end.

(** A non-negative number in at least [width] digits, as ["{:04}"] and
    [%y], [%m], [%d] print it. *)
Definition zero_padded (width : nat) (n : N) : string :=
  zeros (width - String.length (pretty n)) +:+ pretty n.

(** [d.strftime("%y%m%d")] *)
Definition strftime_ymd (d : date) : string :=
  zero_padded 2 (year d `mod` 100)%N +:+ zero_padded 2 (month d)
  +:+ zero_padded 2 (day d).

(** [str(x)] for an optional string. *)
Definition str_of_option (o : option string) : string :=
  match o with
  | Some s => s
  | None => "None"
  end.

(** The truth values of the six [values]: a date and a model instance
    are always true, 0 and the empty string are false. *)
Definition values_truth (self : FlowCellRun) (machine : SequencingMachine.t)
  : list bool :=
  [ bool_decide (is_Some (run_date self));
    true;
    match run_number self with
    | None | Some 0%N => false
    | Some _ => true
    end;
    negb (String.eqb (slot self) "");
    negb (String.eqb (vendor_id self) "");
    truthy (label self) ].

(** [FlowCell.get_full_name]; [None] stands for the exception that
    reading an unset [sequencing_machine] raises, which the tuple
    [values] does first. *)
Definition get_full_name (self : FlowCellRun) : option string :=
  match sequencing_machine self with
  | None => None
  | Some machine =>
      if forallb negb (values_truth self machine) then Some ""
      else
        let run_date_s :=
          match run_date self with
          | None => ""
          | Some d => strftime_ymd d
          end in
        let vendor_id_s := SequencingMachine.vendor_id machine in
        let run_number_s :=
          zero_padded 4
            match run_number self with
            | None | Some 0%N => 0%N
            | Some n => n
            end in
        Some (String.concat "_"
                [run_date_s; vendor_id_s; run_number_s; slot self;
                 vendor_id self; str_of_option (label self)])
  end.

(** [FlowCell.__str__] *)
Definition FlowCell_str (self : FlowCellRun) : option string :=
  full_name ← get_full_name self; Some ("FlowCell " +:+ full_name).

(** The run number as the name shows it: a missing one counts as 0. *)
Definition shown_run_number (self : FlowCellRun) : N :=
  default 0%N (run_number self).

(** Removing the zeros a string starts with. *)
Fixpoint strip_zeros (s : string) : string :=
  match s with
  | String c rest => if Ascii.eqb c "0" then strip_zeros rest else s
  | EmptyString => ""
  end.

(** * Properties *)

(** ** Dictionaries *)

Section dict_facts.
Context {K V : Type} `{EqDecision K}.
Implicit Types (d : list (K * V)) (k : K) (v : V).

Lemma dget_dupd k k' dflt f d :
  dget k (dupd k' dflt f d)
  = if decide (k = k') then Some (f (default dflt (dget k' d)))
    else dget k d.
Proof.
  induction d as [|[k0 v0] d IH]; simpl.
  - repeat case_decide; congruence.
  - destruct (decide (k' = k0)) as [->|Hne]; simpl.
    + repeat case_decide; congruence.
    + rewrite IH. repeat case_decide; congruence.
Qed.

Lemma dget_dset k k' v d :
  dget k (dset k' v d) = if decide (k = k') then Some v else dget k d.
Proof. unfold dset. by rewrite dget_dupd. Qed.

Lemma dget_None k d : dget k d = None ↔ k ∉ dkeys d.
Proof.
  unfold dkeys. induction d as [|[k0 v0] d IH]; simpl.
  - split; [intros _; apply not_elem_of_nil | done].
  - rewrite not_elem_of_cons. case_decide; [split; [done | tauto] | tauto].
Qed.

Lemma dget_is_Some k d : is_Some (dget k d) ↔ k ∈ dkeys d.
Proof.
  rewrite <- not_eq_None_Some, dget_None.
  split; [apply dec_stable | auto].
Qed.

Lemma dget_elem_of k v d : dget k d = Some v → (k, v) ∈ d.
Proof.
  induction d as [|[k0 v0] d IH]; simpl; [done|].
  case_decide; intros; simplify_eq; [left | right; auto].
Qed.

Lemma elem_of_dget k v d : NoDup (dkeys d) → (k, v) ∈ d → dget k d = Some v.
Proof.
  unfold dkeys. induction d as [|[k0 v0] d IH]; simpl.
  - intros _ Hin. by apply elem_of_nil in Hin.
  - rewrite NoDup_cons. intros [Hk0 Hnd] Hin.
    apply elem_of_cons in Hin as [Heq|Hin]; simplify_eq.
    + by rewrite decide_True.
    + rewrite decide_False; [auto|].
      intros ->. apply Hk0. apply list_elem_of_fmap. by exists (k0, v).
Qed.

Lemma dkeys_dupd k dflt f d :
  dkeys (dupd k dflt f d)
  = if decide (k ∈ dkeys d) then dkeys d else dkeys d ++ [k].
Proof.
  unfold dkeys. induction d as [|[k0 v0] d IH].
  - destruct (decide _) as [Hin|_]; [by apply elem_of_nil in Hin | done].
  - cbn [dupd]. destruct (decide (k = k0)) as [->|Hne].
    + clear IH. destruct (decide _) as [_|Hin]; [done|].
      destruct Hin. rewrite fmap_cons. left.
    + rewrite !fmap_cons, IH. cbn [fst].
      destruct (decide (k ∈ d.*1)) as [Hin|Hin];
        destruct (decide (k ∈ k0 :: d.*1)) as [Hin'|Hin']; try done.
      * destruct Hin'. by right.
      * apply elem_of_cons in Hin' as [?|?]; done.
Qed.

Lemma NoDup_dkeys_dupd k dflt f d :
  NoDup (dkeys d) → NoDup (dkeys (dupd k dflt f d)).
Proof.
  intros Hnd. rewrite dkeys_dupd. case_decide; [done|].
  apply NoDup_app. split_and!; [done | | apply NoDup_singleton].
  intros x Hx ->%list_elem_of_singleton. done.
Qed.

Lemma NoDup_dkeys_NoDup d : NoDup (dkeys d) → NoDup d.
Proof. unfold dkeys. apply NoDup_fmap_1. Qed.

Lemma elem_of_dvalues v d : v ∈ dvalues d ↔ ∃ k, (k, v) ∈ d.
Proof.
  unfold dvalues. rewrite list_elem_of_fmap. split.
  - intros [[k v'] [-> Hin]]. by exists k.
  - intros [k Hin]. by exists (k, v).
Qed.

Lemma elem_of_dkeys k d : k ∈ dkeys d ↔ ∃ v, (k, v) ∈ d.
Proof.
  unfold dkeys. rewrite list_elem_of_fmap. split.
  - intros [[k' v] [-> Hin]]. by exists v.
  - intros [v Hin]. by exists (k, v).
Qed.
End dict_facts.

(** A loop that files every event under its key: what one key holds in
    the end is the fold of the updates of the events of that key, in
    their order. *)
Section grouping.
Context {K V E : Type} `{EqDecision K}.
Variables (key : E → K) (dflt : V) (upd : E → V → V).

Lemma NoDup_dkeys_file evs d :
  NoDup (dkeys d) → NoDup (dkeys (fold_left (file_event key dflt upd) evs d)).
Proof.
  revert d. induction evs as [|e evs IH]; simpl; [done|].
  intros d Hnd. apply IH. by apply NoDup_dkeys_dupd.
Qed.

Lemma dget_file k evs d :
  dget k (fold_left (file_event key dflt upd) evs d)
  = match dget k d, filter (λ e, key e = k) evs with
    | None, [] => None
    | o, es => Some (fold_left (λ v e, upd e v) es (default dflt o))
    end.
Proof.
  revert d. induction evs as [|e evs IH]; intros d; simpl.
  - by destruct (dget k d).
  - rewrite IH. unfold file_event. rewrite dget_dupd.
    rewrite filter_cons. destruct (decide (k = key e)) as [->|Hne].
    + rewrite decide_True by done. simpl.
      by destruct (dget (key e) d).
    + rewrite decide_False by done. done.
Qed.

Lemma dkeys_file k evs d :
  k ∈ dkeys (fold_left (file_event key dflt upd) evs d)
  ↔ k ∈ dkeys d ∨ ∃ e, e ∈ evs ∧ key e = k.
Proof.
  rewrite <- !dget_is_Some, dget_file.
  destruct (dget k d) as [v|] eqn:Hd.
  - split; [left; eauto | intros _; eauto].
  - destruct (filter _ evs) as [|e es] eqn:Hf.
    + split; [by intros [? ?]|]. intros [[? ?]|(e & He & Hk)]; [done|].
      assert (e ∈ filter (λ e, key e = k) evs) as Hin
        by (by apply list_elem_of_filter).
      rewrite Hf in Hin. by apply elem_of_nil in Hin.
    + split; [|eauto]. intros _. right. exists e.
      assert (e ∈ filter (λ e, key e = k) evs) as Hin
        by (rewrite Hf; left).
      apply list_elem_of_filter in Hin as [? ?]. done.
Qed.
End grouping.

(** ** The index-histogram checker *)

Lemma elem_of_expect_library read_no acc library s :
  s ≠ "" →
  s ∈ expect_library read_no acc library
  ↔ s ∈ acc ∨ resolved_for read_no library = Some s.
Proof.
  intros Hs. unfold expect_library, resolved_for, get_barcode_seq,
    get_barcode_seq2.
  destruct (read_no =? 0).
  - destruct (barcode library) as [b|]; [set_solver|].
    destruct (barcode_seq library) as [s'|]; [|set_solver].
    simpl. destruct (String.eqb_spec s' ""); simpl; set_solver.
  - destruct (barcode2 library) as [b|]; [set_solver|].
    destruct (barcode_seq2 library) as [s'|]; [|set_solver].
    simpl. destruct (String.eqb_spec s' ""); simpl; set_solver.
Qed.

Lemma elem_of_expected_fold read_no libs acc s :
  s ≠ "" →
  s ∈ fold_left (expect_library read_no) libs acc
  ↔ s ∈ acc ∨ ∃ library, library ∈ libs ∧ resolved_for read_no library = Some s.
Proof.
  intros Hs. revert acc. induction libs as [|lib libs IH]; intros acc; simpl.
  - split; [auto|]. intros [?|(? & Hin & _)]; [done|].
    by apply elem_of_nil in Hin.
  - rewrite IH, elem_of_expect_library by done. split.
    + intros [[?|?]|(l' & ? & ?)]; [by left| |].
      * right. exists lib. split; [left | done].
      * right. exists l'. split; [by right | done].
    + intros [?|(l' & Hin & ?)]; [by left; left|].
      apply elem_of_cons in Hin as [->|?]; [by left; right|].
      right. by exists l'.
Qed.

Lemma elem_of_expected_seqs_of libs hist s :
  s ≠ "" →
  s ∈ expected_seqs_of libs hist
  ↔ ∃ library, library ∈ libs ∧ lane hist ∈ lane_numbers library
      ∧ resolved_for (index_read_no hist) library = Some s.
Proof.
  intros Hs. unfold expected_seqs_of, libraries_on.
  rewrite elem_of_expected_fold by done. split.
  - intros [Hin|(l' & Hin & ?)]; [by apply not_elem_of_empty in Hin|].
    apply list_elem_of_filter in Hin as [? ?]. by exists l'.
  - intros (l' & ? & ? & ?). right. exists l'.
    split; [by apply list_elem_of_filter | done].
Qed.

Lemma all_N_false_nonempty s : all_N s = false → s ≠ "".
Proof. by intros H ->. Qed.

Lemma dget_check_observed hist expected items result k :
  dget k (fold_left (check_observed hist expected) items result)
  = if decide (lane hist = k.1.1 ∧ index_read_no hist = k.1.2
               ∧ k.2 ∈ dkeys items ∧ all_N k.2 = false ∧ k.2 ∉ expected)
    then Some [index_msg k.2 k.1.1 k.1.2]
    else dget k result.
Proof.
  revert result. induction items as [|[seq n] items IH] using rev_ind;
    intros result.
  - simpl. rewrite decide_False; [done|].
    intros (_ & _ & Hin & _). by apply elem_of_nil in Hin.
  - rewrite fold_left_app. simpl. unfold check_observed at 1. simpl.
    unfold dkeys. rewrite fmap_app. simpl.
    destruct k as [[l r] s]. simpl.
    destruct (all_N seq) eqn:HN.
    + rewrite IH. simpl. apply decide_ext. unfold dkeys.
      rewrite elem_of_app, list_elem_of_singleton. split; [tauto|].
      intros (? & ? & [?| ->] & ? & ?); [tauto | congruence].
    + destruct (bool_decide_reflect (seq ∈ expected)) as [Hin|Hin].
      * rewrite IH. simpl. apply decide_ext. unfold dkeys.
        rewrite elem_of_app, list_elem_of_singleton. split; [tauto|].
        intros (? & ? & [?| ->] & ? & ?); [tauto | done].
      * rewrite dget_dset.
        destruct (decide ((l, r, s) = (lane hist, index_read_no hist, seq)))
          as [Heq|Hne].
        -- simplify_eq. rewrite decide_True; [done|].
           split_and!; try done. apply elem_of_app. right. left.
        -- rewrite IH. simpl. apply decide_ext. unfold dkeys.
           rewrite elem_of_app, list_elem_of_singleton. split; [tauto|].
           intros (? & ? & [?| ->] & ? & ?); [tauto | congruence].
Qed.

Lemma dget_check_histogram libs hist result k :
  dget k (check_histogram libs result hist)
  = if decide (flags libs hist k) then Some [index_msg k.2 k.1.1 k.1.2]
    else dget k result.
Proof. unfold check_histogram, flags. apply dget_check_observed. Qed.

Lemma dget_index_errors libs hists k v :
  dget k (fold_left (check_histogram libs) hists []) = Some v
  ↔ (∃ hist, hist ∈ hists ∧ flags libs hist k)
    ∧ v = [index_msg k.2 k.1.1 k.1.2].
Proof.
  induction hists as [|hist hists IH] using rev_ind.
  - simpl. split; [done|]. intros [(? & Hin & _) _].
    by apply elem_of_nil in Hin.
  - rewrite fold_left_app. simpl. rewrite dget_check_histogram.
    destruct (decide (flags libs hist k)) as [Hf|Hf].
    + split.
      * intros [= <-]. split; [|done]. exists hist.
        split; [apply elem_of_app; right; left | done].
      * by intros [_ ->].
    + rewrite IH. split.
      * intros [(h & Hin & ?) ->]. split; [|done]. exists h.
        split; [apply elem_of_app; by left | done].
      * intros [(h & Hin & ?) ->]. split; [|done]. exists h.
        apply elem_of_app in Hin as [?| ->%list_elem_of_singleton]; done.
Qed.

Lemma NoDup_dkeys_check_histogram libs hist result :
  NoDup (dkeys result) → NoDup (dkeys (check_histogram libs result hist)).
Proof.
  unfold check_histogram. generalize (expected_seqs_of libs hist) as exp.
  intros exp. revert result.
  induction (histogram hist) as [|item items IH]; intros result Hnd; [done|].
  simpl. apply IH. unfold check_observed.
  destruct (all_N item.1); [done|].
  destruct (bool_decide _); [done|]. by apply NoDup_dkeys_dupd.
Qed.

Lemma NoDup_dkeys_index_errors self : NoDup (dkeys (get_index_errors self)).
Proof.
  unfold get_index_errors.
  assert (NoDup (dkeys ([] : list ((Z * Z * string) * list string))))
    as Hnil by constructor.
  revert Hnil. generalize ([] : list ((Z * Z * string) * list string)).
  induction (index_histograms self) as [|h hs IH]; intros r Hr; [done|].
  simpl. apply IH. by apply NoDup_dkeys_check_histogram.
Qed.

(** C5: the index error report has the key (lane, index read, sequence)
    exactly when the sequence is observed in a histogram of that lane
    and read, is not all "N", and is not the resolved sequence (barcode 1
    for read 0, barcode 2 otherwise) of a library on that lane; the key
    then holds the single message that the sequence was found in the raw
    data but not in the sample sheet, and no key occurs twice. *)
Theorem index_errors_iff (self : FlowCell) (l r : Z) (s : string) :
  (is_Some (dget (l, r, s) (get_index_errors self))
   ↔ (∃ hist, hist ∈ index_histograms self ∧ lane hist = l
        ∧ index_read_no hist = r ∧ s ∈ dkeys (histogram hist))
     ∧ all_N s = false
     ∧ ¬ ∃ library, library ∈ libraries self ∧ l ∈ lane_numbers library
         ∧ resolved_for r library = Some s)
  ∧ (∀ msgs, dget (l, r, s) (get_index_errors self) = Some msgs
       → msgs = [index_msg s l r])
  ∧ NoDup (dkeys (get_index_errors self)).
Proof.
  split_and!.
  - unfold get_index_errors, is_Some.
    setoid_rewrite dget_index_errors. unfold flags. simpl. split.
    + intros (v & (h & Hin & <- & <- & Hs & HN & Hexp) & _).
      split_and!; [by exists h | done |].
      intros Hex. apply Hexp. apply elem_of_expected_seqs_of;
        [by apply all_N_false_nonempty | done].
    + intros ((h & Hin & <- & <- & Hs) & HN & Hexp).
      eexists. split; [|done]. exists h. split_and!; try done.
      intros Hex. apply Hexp. by apply elem_of_expected_seqs_of in Hex;
        [|apply all_N_false_nonempty].
  - intros msgs H. by apply dget_index_errors in H as [_ ->].
  - apply NoDup_dkeys_index_errors.
Qed.

Lemma check_observed_counts h1 h2 expected items1 items2 result :
  lane h1 = lane h2 → index_read_no h1 = index_read_no h2 →
  dkeys items1 = dkeys items2 →
  fold_left (check_observed h1 expected) items1 result
  = fold_left (check_observed h2 expected) items2 result.
Proof.
  intros Hl Hr. revert items2 result.
  induction items1 as [|[s1 n1] items1 IH]; intros [|[s2 n2] items2] result;
    simpl; try done.
  intros [= -> Hk]. rewrite (IH items2) by done.
  unfold check_observed. simpl. by rewrite Hl, Hr.
Qed.

Lemma expected_seqs_of_counts libs h1 h2 :
  lane h1 = lane h2 → index_read_no h1 = index_read_no h2 →
  expected_seqs_of libs h1 = expected_seqs_of libs h2.
Proof. unfold expected_seqs_of. by intros -> ->. Qed.

(** C6: the index error report depends on which sequences were observed,
    never on their counts. *)
Theorem index_errors_ignore_counts (fc1 fc2 : FlowCell) :
  libraries fc1 = libraries fc2 →
  Forall2 same_observed (index_histograms fc1) (index_histograms fc2) →
  get_index_errors fc1 = get_index_errors fc2.
Proof.
  unfold get_index_errors. intros <- Hh.
  generalize ([] : list ((Z * Z * string) * list string)) as result.
  induction Hh as [|h1 h2 hs1 hs2 (Hl & Hr & Hk) _ IH]; intros result;
    [done|].
  simpl. rewrite IH. f_equal. unfold check_histogram.
  rewrite (expected_seqs_of_counts _ h1 h2) by done.
  by apply check_observed_counts.
Qed.

Lemma index_errors_ignore_counts_witness :
  get_index_errors
    (cell 8 [lib 1 "LibA" (Some "AAAA") None [1]]
       [ {| lane := 1; index_read_no := 0; sample_size := 108;
            histogram := [("AAAA", 100); ("NNNN", 5); ("TTTT", 3)] |} ])
  = get_index_errors
      (cell 8 [lib 1 "LibA" (Some "AAAA") None [1]]
         [ {| lane := 1; index_read_no := 0; sample_size := 7;
              histogram := [("AAAA", 1); ("NNNN", 0); ("TTTT", 6)] |} ]).
Proof.
  apply index_errors_ignore_counts; [reflexivity|].
  repeat constructor.
Defined.

(** ** The first loop of the sample-sheet checker *)

Section gather_facts.
Variable pretty_range : list Z → string.

Lemma elem_of_lane_events libs lane library :
  (lane, library) ∈ lane_events libs
  ↔ library ∈ libs ∧ lane ∈ lane_numbers library.
Proof.
  unfold lane_events. rewrite list_elem_of_bind. split.
  - intros (l' & Hin & ?). apply list_elem_of_fmap in Hin as (? & ? & ?).
    by simplify_eq.
  - intros [? ?]. exists library. split; [|done].
    apply list_elem_of_fmap. by exists lane.
Qed.

Lemma gather_lane_fold library lanes st :
  let evs := (λ lane, (lane, library)) <$> lanes in
  fold_left (gather_lane library) lanes st
  = {| g_result := g_result st;
       g_by_uuid := g_by_uuid st;
       g_by_name :=
         fold_left (file_event name_key [] add_library) evs (g_by_name st);
       g_by_barcode :=
         fold_left (file_event barcode_key [] set_library) evs
           (g_by_barcode st);
       g_by_barcode2 :=
         fold_left (file_event barcode2_key [] set_library) evs
           (g_by_barcode2 st) |}.
Proof.
  revert st. induction lanes as [|lane lanes IH]; intros st; simpl.
  - by destruct st.
  - by rewrite IH.
Qed.

Lemma gather_fold n_lanes libs st :
  fold_left (gather_library pretty_range n_lanes) libs st
  = {| g_result :=
         fold_left (λ r library,
                      check_lanes pretty_range n_lanes library
                        (check_name library r)) libs (g_result st);
       g_by_uuid :=
         fold_left (λ d library, dset (sodar_uuid library) library d) libs
           (g_by_uuid st);
       g_by_name :=
         fold_left (file_event name_key [] add_library) (lane_events libs)
           (g_by_name st);
       g_by_barcode :=
         fold_left (file_event barcode_key [] set_library)
           (lane_events libs) (g_by_barcode st);
       g_by_barcode2 :=
         fold_left (file_event barcode2_key [] set_library)
           (lane_events libs) (g_by_barcode2 st) |}.
Proof.
  revert st. induction libs as [|library libs IH]; intros st.
  - by destruct st.
  - cbn [fold_left]. rewrite IH. unfold gather_library.
    rewrite gather_lane_fold. cbn [g_result g_by_uuid g_by_name
      g_by_barcode g_by_barcode2].
    unfold lane_events. rewrite bind_cons, !fold_left_app. done.
Qed.
End gather_facts.

(** ** Reading a report *)

Lemma field_of_add_error u f u' f' msg result :
  field_of u f (add_error u' f' msg result)
  = if decide (u = u' ∧ f = f')
    then Some (default [] (field_of u f result) ++ [msg])
    else field_of u f result.
Proof.
  unfold field_of, add_error. rewrite dget_dupd.
  destruct (decide (u = u')) as [->|Hu]; simpl.
  - rewrite dget_dupd. destruct (decide (f = f')) as [->|Hf].
    + rewrite decide_True by done. by destruct (dget u' result).
    + rewrite decide_False by tauto. by destruct (dget u' result).
  - by rewrite decide_False by tauto.
Qed.

Lemma field_of_default_error u f u' f' msgs result :
  field_of u f (default_error u' f' msgs result)
  = if decide (u = u' ∧ f = f')
    then Some (default msgs (field_of u f result))
    else field_of u f result.
Proof.
  unfold field_of, default_error, setdefault. rewrite dget_dupd.
  destruct (decide (u = u')) as [->|Hu]; simpl.
  - rewrite dget_dupd. destruct (decide (f = f')) as [->|Hf].
    + rewrite decide_True by done. by destruct (dget u' result).
    + rewrite decide_False by tauto. by destruct (dget u' result).
  - by rewrite decide_False by tauto.
Qed.

Section first_loop_result.
Variable pretty_range : list Z → string.
Variable n_lanes : Z.

Lemma field_of_check_library u f result library :
  field_of u f (check_library pretty_range n_lanes result library)
  = if decide (u = sodar_uuid library)
    then checked_field pretty_range n_lanes library f (field_of u f result)
    else field_of u f result.
Proof.
  unfold check_library, check_lanes, check_name, checked_field.
  destruct (invalid_lanes n_lanes library) as [|b bs] eqn:Hbad.
  - destruct (name_re_match (name library)).
    + repeat case_decide; done.
    + rewrite field_of_add_error.
      repeat case_decide; try done; naive_solver.
  - rewrite field_of_default_error.
    destruct (name_re_match (name library)).
    + repeat case_decide; try done; naive_solver.
    + rewrite field_of_add_error.
      repeat case_decide; try done; naive_solver.
Qed.

Lemma field_of_checked_other u f libs result :
  u ∉ sodar_uuid <$> libs →
  field_of u f (fold_left (check_library pretty_range n_lanes) libs result) = field_of u f result.
Proof.
  revert result. induction libs as [|library libs IH]; intros result;
    [done|].
  rewrite fmap_cons, not_elem_of_cons. intros [Hu Hin]. simpl.
  rewrite IH by done. rewrite field_of_check_library.
  by rewrite decide_False.
Qed.

Lemma field_of_checked library f libs result :
  NoDup (sodar_uuid <$> libs) → library ∈ libs →
  field_of (sodar_uuid library) f (fold_left (check_library pretty_range n_lanes) libs result)
  = checked_field pretty_range n_lanes library f (field_of (sodar_uuid library) f result).
Proof.
  revert result. induction libs as [|l0 libs IH]; intros result.
  - intros _ Hin. by apply elem_of_nil in Hin.
  - rewrite fmap_cons, NoDup_cons. intros [Hl0 Hnd] Hin. simpl.
    apply elem_of_cons in Hin as [->|Hin].
    + rewrite field_of_checked_other by done.
      rewrite field_of_check_library. by rewrite decide_True.
    + rewrite IH by done. rewrite field_of_check_library.
      rewrite decide_False; [done|]. intros Heq. apply Hl0.
      rewrite <- Heq. by apply list_elem_of_fmap_2.
Qed.
End first_loop_result.

(** ** Dictionaries filled by assignment *)

Section assigned.
Context {K V X : Type} `{EqDecision K}.
Variables (kf : X → K) (vf : X → V).

Lemma NoDup_dkeys_assign xs d :
  NoDup (dkeys d) → NoDup (dkeys (fold_left (assign kf vf) xs d)).
Proof.
  revert d. induction xs as [|x xs IH]; intros d Hd; [done|].
  simpl. apply IH. by apply NoDup_dkeys_dupd.
Qed.

Lemma dget_assign_Some k v xs d :
  dget k (fold_left (assign kf vf) xs d) = Some v →
  dget k d = Some v ∨ ∃ x, x ∈ xs ∧ kf x = k ∧ vf x = v.
Proof.
  revert d. induction xs as [|x xs IH]; intros d; simpl; [by left|].
  intros [Hd|(x' & Hin & ?)]%IH.
  - unfold assign in Hd. rewrite dget_dset in Hd.
    case_decide; simplify_eq; [|by left].
    right. exists x. split; [left | done].
  - right. exists x'. split; [by right | done].
Qed.

Lemma dget_assign_is_Some k xs d :
  is_Some (dget k (fold_left (assign kf vf) xs d))
  ↔ is_Some (dget k d) ∨ ∃ x, x ∈ xs ∧ kf x = k.
Proof.
  revert d. induction xs as [|x xs IH]; intros d; simpl.
  - split; [by left|]. intros [?|(? & Hin & _)]; [done|].
    by apply elem_of_nil in Hin.
  - rewrite IH. unfold assign. rewrite dget_dset. split.
    + intros [Hd|(x' & ? & ?)].
      * case_decide; [|by left]. right. exists x. split; [left|done].
      * right. exists x'. split; [by right | done].
    + intros [Hd|(x' & Hin & ?)].
      * left. by case_decide.
      * apply elem_of_cons in Hin as [->|Hin].
        -- left. by rewrite decide_True.
        -- right. by exists x'.
Qed.
End assigned.

(** ** The reporting loops *)

Section reporting.
Variable pretty_range : list Z → string.
Implicit Types (result : list (uuid * list (string * list string)))
  (bad : list (uuid * list Z)) (by_uuid : list (uuid * Library)).

Lemma report_name_fold by_uuid bad result :
  NoDup (dkeys bad) →
  (∀ u, u ∈ dkeys bad → is_Some (dget u by_uuid)) →
  ∃ result',
    foldM (report_name pretty_range by_uuid) bad result = Some result'
    ∧ ∀ u f,
        field_of u f result'
        = match dget u bad, dget u by_uuid with
          | Some lanes, Some library =>
              if decide (f = "name")
              then Some (default [] (field_of u f result)
                         ++ [name_msg pretty_range (name library) lanes])
              else field_of u f result
          | _, _ => field_of u f result
          end.
Proof.
  revert result. induction bad as [|[u0 lanes0] bad IH]; intros result.
  - intros _ _. exists result. done.
  - unfold dkeys. rewrite fmap_cons, NoDup_cons. intros [Hu0 Hnd] Hall.
    destruct (Hall u0) as [lib0 Hlib0]; [left|].
    destruct (IH (add_error u0 "name"
                    (name_msg pretty_range (name lib0) lanes0) result))
      as (result' & Hfold & Hfields); [done | |].
    { intros u Hu. apply Hall. by right. }
    exists result'. split.
    { simpl. by rewrite Hlib0. }
    intros u f. rewrite Hfields. simpl.
    rewrite field_of_add_error.
    destruct (decide (u = u0)) as [->|Hne].
    + assert (dget u0 bad = None) as -> by (by apply dget_None).
      rewrite Hlib0. destruct (decide (f = "name")) as [->|Hf].
      * by rewrite decide_True.
      * by rewrite decide_False by tauto.
    + rewrite decide_False by tauto. done.
Qed.

Lemma field_of_add_errors u f u0 (keys : list string) msg result :
  NoDup keys →
  field_of u f (fold_left (λ r key, add_error u0 key msg r) keys result)
  = if decide (u = u0 ∧ f ∈ keys)
    then Some (default [] (field_of u f result) ++ [msg])
    else field_of u f result.
Proof.
  revert result. induction keys as [|key keys IH]; intros result.
  - intros _. simpl. rewrite decide_False; [done|].
    intros [_ Hin]. by apply elem_of_nil in Hin.
  - rewrite NoDup_cons. intros [Hkey Hnd]. simpl. rewrite IH by done.
    rewrite field_of_add_error.
    destruct (decide (u = u0 ∧ f = key)) as [[-> ->]|Hne].
    + rewrite decide_False by tauto.
      rewrite decide_True; [done | split; [done | left]].
    + apply decide_ext. rewrite elem_of_cons. tauto.
Qed.

Lemma NoDup_barcode_keys library : NoDup (barcode_keys library).
Proof.
  unfold barcode_keys.
  destruct (truthy (get_barcode_seq library)),
    (truthy (get_barcode_seq2 library)); simpl;
    repeat constructor; set_solver.
Qed.

Lemma report_barcode_fold by_uuid bad result :
  NoDup (dkeys bad) →
  (∀ u, u ∈ dkeys bad → is_Some (dget u by_uuid)) →
  ∃ result',
    foldM (report_barcode pretty_range by_uuid) bad result = Some result'
    ∧ ∀ u f,
        field_of u f result'
        = match dget u bad, dget u by_uuid with
          | Some lanes, Some library =>
              if decide (f ∈ barcode_keys library)
              then Some (default [] (field_of u f result)
                         ++ [barcode_msg pretty_range library lanes])
              else field_of u f result
          | _, _ => field_of u f result
          end.
Proof.
  revert result. induction bad as [|[u0 lanes0] bad IH]; intros result.
  - intros _ _. exists result. done.
  - unfold dkeys. rewrite fmap_cons, NoDup_cons. intros [Hu0 Hnd] Hall.
    destruct (Hall u0) as [lib0 Hlib0]; [left|].
    edestruct IH as (result' & Hfold & Hfields); [done | |].
    { intros u Hu. apply Hall. by right. }
    exists result'. split.
    { simpl. rewrite Hlib0. exact Hfold. }
    intros u f. rewrite Hfields. simpl.
    rewrite field_of_add_errors by apply NoDup_barcode_keys.
    destruct (decide (u = u0)) as [->|Hne].
    + assert (dget u0 bad = None) as -> by (by apply dget_None).
      rewrite Hlib0. apply decide_ext. tauto.
    + rewrite decide_False by tauto. done.
Qed.
End reporting.

(** ** Lists *)

Lemma NoDup_fmap_eq {A B : Type} (f : A → B) (l : list A) (x y : A) :
  NoDup (f <$> l) → x ∈ l → y ∈ l → f x = f y → x = y.
Proof.
  induction l as [|a l IH]; [by intros _ ?%elem_of_nil|].
  rewrite fmap_cons, NoDup_cons. intros [Ha Hnd] Hx Hy Hf.
  apply elem_of_cons in Hx as [->|Hx]; apply elem_of_cons in Hy as [->|Hy];
    [done | | |by apply IH].
  - destruct Ha. rewrite Hf. by apply list_elem_of_fmap_2.
  - destruct Ha. rewrite <- Hf. by apply list_elem_of_fmap_2.
Qed.

Lemma length_ne_1_other {A : Type} (l : list A) (x : A) :
  NoDup l → x ∈ l → length l ≠ 1%nat ↔ ∃ y, y ∈ l ∧ y ≠ x.
Proof.
  intros Hnd Hx. destruct l as [|a [|b l]].
  - by apply elem_of_nil in Hx.
  - apply list_elem_of_singleton in Hx as ->. split; [done|].
    intros (y & ->%list_elem_of_singleton & ?). done.
  - split; [|done]. intros _.
    apply NoDup_cons in Hnd as [Hab _].
    apply elem_of_cons in Hx as [->|Hx].
    + exists b. split; [right; left|]. intros ->. apply Hab. left.
    + exists a. split; [left|]. by intros ->.
Qed.

(** ** The name clashes *)

Section name_clashes.
Variable pretty_range : list Z → string.
Variable n_lanes : Z.
Variable libs : list Library.

Let by_name := g_by_name (gather pretty_range n_lanes libs).
Let by_uuid := g_by_uuid (gather pretty_range n_lanes libs).

Lemma fold_add_library es l0 :
  fold_left (λ v e, add_library e v) es l0 = l0 ++ es.*2.
Proof.
  revert l0. induction es as [|e es IH]; intros l0; simpl.
  - by rewrite app_nil_r.
  - rewrite IH. unfold add_library. by rewrite <- app_assoc.
Qed.

Lemma fold_add_lane (es : list (uuid * Z)) l0 :
  fold_left (λ v e, add_lane e v) es l0 = l0 ++ es.*2.
Proof.
  revert l0. induction es as [|e es IH]; intros l0; simpl.
  - by rewrite app_nil_r.
  - rewrite IH. unfold add_lane. by rewrite <- app_assoc.
Qed.

Lemma by_name_eq :
  by_name
  = fold_left (file_event name_key [] add_library) (lane_events libs) [].
Proof. unfold by_name, gather. by rewrite gather_fold. Qed.

Lemma by_uuid_eq :
  by_uuid = fold_left (assign sodar_uuid id) libs [].
Proof. unfold by_uuid, gather. by rewrite gather_fold. Qed.

Lemma NoDup_by_name : NoDup (dkeys by_name).
Proof. rewrite by_name_eq. apply NoDup_dkeys_file. constructor. Qed.

Lemma by_name_item k ls :
  (k, ls) ∈ by_name ↔ ls = named_on libs k ∧ ls ≠ [].
Proof.
  split.
  - intros Hin%(elem_of_dget _ _ _ NoDup_by_name).
    rewrite by_name_eq, dget_file in Hin. simpl in Hin.
    unfold named_on. destruct (filter _ _) as [|e es]; [done|].
    simplify_eq. by rewrite fold_add_library.
  - intros [-> Hne]. apply dget_elem_of.
    rewrite by_name_eq, dget_file. simpl. unfold named_on in *.
    destruct (filter _ _) as [|e es]; [done|].
    by rewrite fold_add_library.
Qed.

Lemma elem_of_named_on library lane nm :
  library ∈ named_on libs (lane, nm)
  ↔ library ∈ libs ∧ lane ∈ lane_numbers library ∧ name library = nm.
Proof.
  unfold named_on. rewrite list_elem_of_fmap. split.
  - intros ([l' lib'] & -> & Hin). simpl.
    apply list_elem_of_filter in Hin as [Hk Hin].
    apply elem_of_lane_events in Hin as [? ?].
    unfold name_key in Hk. by simplify_eq/=.
  - intros (? & ? & <-). exists (lane, library). split; [done|].
    apply list_elem_of_filter. split; [done|].
    by apply elem_of_lane_events.
Qed.

Lemma name_bad_lanes_eq :
  name_bad_lanes by_name
  = fold_left (file_event fst [] add_lane) (name_marks by_name) [].
Proof.
  unfold name_bad_lanes, name_marks.
  generalize ([] : list (uuid * list Z)) as bad.
  induction by_name as [|[[lane nm] ls] d IH]; intros bad; [done|].
  rewrite bind_cons, fold_left_app. cbn [fold_left]. rewrite IH. f_equal.
  unfold name_clash. simpl. case_bool_decide; [|done].
  clear. revert bad. induction ls as [|l ls IH]; intros bad; [done|].
  rewrite fmap_cons. simpl. by rewrite IH.
Qed.

Lemma elem_of_name_marks u lane :
  (u, lane) ∈ name_marks by_name
  ↔ ∃ nm library,
      named_on libs (lane, nm) ≠ [] ∧ length (named_on libs (lane, nm)) ≠ 1%nat
      ∧ library ∈ named_on libs (lane, nm) ∧ sodar_uuid library = u.
Proof.
  unfold name_marks. rewrite list_elem_of_bind. split.
  - intros ([[lane' nm] ls] & Hin & [-> Hne]%by_name_item). simpl in Hin.
    case_bool_decide; [|by apply elem_of_nil in Hin].
    apply list_elem_of_fmap in Hin as (library & [= -> ->] & Hin).
    by exists nm, library.
  - intros (nm & library & Hne & Hlen & Hin & <-).
    exists ((lane, nm), named_on libs (lane, nm)). split.
    + simpl. rewrite bool_decide_true by done.
      apply list_elem_of_fmap. by exists library.
    + by apply by_name_item.
Qed.

Lemma name_bad_lanes_library u :
  u ∈ dkeys (name_bad_lanes by_name) →
  ∃ library, library ∈ libs ∧ sodar_uuid library = u.
Proof.
  rewrite name_bad_lanes_eq, dkeys_file.
  intros [Hin|([u' lane] & Hin & <-)]; [by apply elem_of_nil in Hin|].
  apply elem_of_name_marks in Hin as (nm & library & _ & _ & Hin & <-).
  apply elem_of_named_on in Hin as (? & _). by exists library.
Qed.

Lemma by_uuid_is_Some library :
  library ∈ libs → is_Some (dget (sodar_uuid library) by_uuid).
Proof.
  intros Hin. rewrite by_uuid_eq. apply dget_assign_is_Some.
  right. by exists library.
Qed.

Lemma by_uuid_Some u library :
  dget u by_uuid = Some library → library ∈ libs ∧ sodar_uuid library = u.
Proof.
  rewrite by_uuid_eq. intros [?|(x & ? & ? & ?)]%dget_assign_Some; [done|].
  unfold id in *. by simplify_eq.
Qed.

Lemma NoDup_name_bad_lanes : NoDup (dkeys (name_bad_lanes by_name)).
Proof. rewrite name_bad_lanes_eq. apply NoDup_dkeys_file. constructor. Qed.

Lemma dget_name_bad_lanes u :
  dget u (name_bad_lanes by_name)
  = match name_lanes pretty_range n_lanes libs u with [] => None | lanes => Some lanes end.
Proof.
  rewrite name_bad_lanes_eq, dget_file. simpl. unfold name_lanes.
  destruct (filter _ _) as [|e es]; [done|].
  by rewrite fold_add_lane.
Qed.
End name_clashes.

Section unique_names.
Variable pretty_range : list Z → string.
Variable n_lanes : Z.
Variable libs : list Library.
Hypothesis Huuid : NoDup (sodar_uuid <$> libs).

Let by_name := g_by_name (gather pretty_range n_lanes libs).
Let by_uuid := g_by_uuid (gather pretty_range n_lanes libs).

Lemma library_eq l1 l2 :
  l1 ∈ libs → l2 ∈ libs → sodar_uuid l1 = sodar_uuid l2 → l1 = l2.
Proof. by apply NoDup_fmap_eq. Qed.

Lemma by_uuid_library library :
  library ∈ libs →
  dget (sodar_uuid library) (g_by_uuid (gather pretty_range n_lanes libs))
  = Some library.
Proof.
  intros Hin. destruct (by_uuid_is_Some pretty_range n_lanes libs library)
    as [l' Hl']; [done|].
  rewrite Hl'. apply by_uuid_Some in Hl' as [? ?]. f_equal.
  by apply library_eq.
Qed.

Section unique_lanes.
Hypothesis Hlanes : ∀ library, library ∈ libs →
                               NoDup (lane_numbers library).

Lemma NoDup_lane_events : NoDup (lane_events libs).
Proof.
  unfold lane_events. apply NoDup_bind.
  - intros l1 l2 [lane l] _ _
      (? & ? & _)%list_elem_of_fmap (? & ? & _)%list_elem_of_fmap.
    congruence.
  - intros l Hl. apply NoDup_fmap_2; [|by apply Hlanes].
    by intros ?? [= ->].
  - eapply NoDup_fmap_1, Huuid.
Qed.

Lemma NoDup_named_on k : NoDup (named_on libs k).
Proof.
  unfold named_on. apply NoDup_fmap_2_strong.
  - intros [l1 x1] [l2 x2] [H1 _]%list_elem_of_filter
      [H2 _]%list_elem_of_filter. simpl. intros ->.
    unfold name_key in *. simpl in *. congruence.
  - apply NoDup_filter, NoDup_lane_events.
Qed.

Lemma named_on_clash library lane :
  library ∈ libs → lane ∈ lane_numbers library →
  length (named_on libs (lane, name library)) ≠ 1%nat
  ↔ name_clash_on libs library lane.
Proof.
  intros Hin Hlane. unfold name_clash_on.
  rewrite (length_ne_1_other _ library);
    [|apply NoDup_named_on | by apply elem_of_named_on].
  split.
  - intros (other & (? & ? & ?)%elem_of_named_on & Hne).
    split; [done|]. exists other. split_and!; try done.
    intros Heq. apply Hne. by apply library_eq.
  - intros (_ & other & ? & Hne & ? & ?). exists other.
    split; [by apply elem_of_named_on | congruence].
Qed.

Lemma elem_of_name_lanes library lane :
  library ∈ libs →
  lane ∈ name_lanes pretty_range n_lanes libs (sodar_uuid library)
  ↔ name_clash_on libs library lane.
Proof.
  intros Hin. unfold name_lanes. rewrite list_elem_of_fmap. split.
  - intros ([u l] & -> & [Hu Hm]%list_elem_of_filter). simpl in *.
    apply elem_of_name_marks in Hm
      as (nm & l' & _ & Hlen & Hl' & Heq).
    pose proof Hl' as (? & ? & <-)%elem_of_named_on.
    assert (l' = library) as -> by (apply library_eq; congruence).
    by apply named_on_clash.
  - intros Hclash. exists (sodar_uuid library, lane). split; [done|].
    apply list_elem_of_filter. split; [done|].
    apply elem_of_name_marks. exists (name library), library.
    destruct Hclash as [Hlane Hother].
    assert (library ∈ named_on libs (lane, name library)) as Hmem
      by (by apply elem_of_named_on).
    split_and!; try done.
    + intros Hnil. rewrite Hnil in Hmem. by apply elem_of_nil in Hmem.
    + by apply named_on_clash.
Qed.

Lemma NoDup_name_marks : NoDup (name_marks by_name).
Proof.
  unfold name_marks. apply NoDup_bind.
  - intros [[lane1 nm1] ls1] [[lane2 nm2] ls2] [u lane]
      [-> _]%by_name_item [-> _]%by_name_item. simpl.
    case_bool_decide; [|by intros ?%elem_of_nil].
    case_bool_decide; [|by intros _ ?%elem_of_nil].
    intros (x1 & [= -> ->] & H1)%list_elem_of_fmap
      (x2 & [= Hu ->] & H2)%list_elem_of_fmap.
    apply elem_of_named_on in H1 as (? & ? & <-).
    apply elem_of_named_on in H2 as (? & ? & <-).
    assert (x1 = x2) as -> by (by apply library_eq). done.
  - intros [[lane nm] ls] [-> _]%by_name_item. simpl.
    case_bool_decide; [|constructor].
    apply NoDup_fmap_2_strong; [|apply NoDup_named_on].
    intros x1 x2 (? & _)%elem_of_named_on (? & _)%elem_of_named_on
      [= ?]. by apply library_eq.
  - apply NoDup_dkeys_NoDup, NoDup_by_name.
Qed.

Lemma NoDup_name_lanes u :
  NoDup (name_lanes pretty_range n_lanes libs u).
Proof.
  unfold name_lanes. apply NoDup_fmap_2_strong.
  - intros [u1 l1] [u2 l2] [H1 _]%list_elem_of_filter
      [H2 _]%list_elem_of_filter. simpl in *. congruence.
  - apply NoDup_filter, NoDup_name_marks.
Qed.
End unique_lanes.
End unique_names.

(** ** The barcode groups *)

Section barcode_groups.
Variable libs : list Library.
(** The barcode slot the group is about: [get_barcode_seq] for
    [by_barcode], [get_barcode_seq2] for [by_barcode2]. *)
Variable sel : Library → option string.

Lemma fold_set_library (es : list (Z * Library)) d :
  fold_left (λ v e, set_library e v) es d
  = fold_left (assign (λ e : Z * Library, sodar_uuid e.2) snd) es d.
Proof. done. Qed.

Lemma NoDup_groups : NoDup (dkeys (groups libs sel)).
Proof. apply NoDup_dkeys_file. constructor. Qed.

Lemma dget_groups k :
  dget k (groups libs sel)
  = match filter (λ e, seq_key sel e = k) (lane_events libs) with
    | [] => None
    | _ => Some (filed_on libs sel k)
    end.
Proof.
  unfold groups, filed_on. rewrite dget_file. simpl.
  by destruct (filter _ _).
Qed.

Lemma groups_item k d : (k, d) ∈ (groups libs sel) → d = filed_on libs sel k.
Proof.
  intros Hin%(elem_of_dget _ _ _ NoDup_groups).
  rewrite dget_groups in Hin. destruct (filter _ _); by simplify_eq.
Qed.

Lemma dget_groups_library library lane :
  library ∈ libs → lane ∈ lane_numbers library →
  dget (lane, sel library) (groups libs sel) = Some (filed_on libs sel (lane, sel library)).
Proof.
  intros Hin Hlane. rewrite dget_groups.
  destruct (filter _ _) as [|e es] eqn:Hf; [|done].
  assert ((lane, library) ∈ filter (λ e, seq_key sel e = (lane, sel library))
            (lane_events libs)) as Hmem.
  { apply list_elem_of_filter. split; [done|].
    by apply elem_of_lane_events. }
  rewrite Hf in Hmem. by apply elem_of_nil in Hmem.
Qed.

Lemma NoDup_filed_on k : NoDup (dkeys (filed_on libs sel k)).
Proof. apply NoDup_dkeys_assign. constructor. Qed.

Lemma filed_on_item lane s u library :
  (u, library) ∈ filed_on libs sel (lane, s) →
  library ∈ libs ∧ lane ∈ lane_numbers library ∧ sel library = s
  ∧ sodar_uuid library = u.
Proof.
  intros Hin%(elem_of_dget _ _ _ (NoDup_filed_on _)).
  apply dget_assign_Some in Hin
    as [?|([l x] & [Hk Hin]%list_elem_of_filter & ? & ?)]; [done|].
  apply elem_of_lane_events in Hin as [? ?].
  unfold seq_key in Hk. by simplify_eq/=.
Qed.

Lemma elem_of_dkeys_filed_on lane s u :
  u ∈ dkeys (filed_on libs sel (lane, s))
  ↔ ∃ library, library ∈ libs ∧ lane ∈ lane_numbers library
      ∧ sel library = s ∧ sodar_uuid library = u.
Proof.
  split.
  - intros [library Hin]%elem_of_dkeys. exists library.
    by apply filed_on_item in Hin.
  - intros (library & ? & ? & <- & <-).
    apply dget_is_Some, dget_assign_is_Some. right.
    exists (lane, library). split; [|done].
    apply list_elem_of_filter. split; [done|].
    by apply elem_of_lane_events.
Qed.

Lemma filed_on_value lane s library :
  NoDup (sodar_uuid <$> libs) →
  library ∈ dvalues (filed_on libs sel (lane, s))
  ↔ library ∈ libs ∧ lane ∈ lane_numbers library ∧ sel library = s.
Proof.
  intros Huuid. rewrite elem_of_dvalues. split.
  - intros [u Hin]. by apply filed_on_item in Hin as (? & ? & ? & _).
  - intros (Hin & Hlane & Hs).
    assert (sodar_uuid library ∈ dkeys (filed_on libs sel (lane, s)))
      as [l' Hl']%elem_of_dkeys
      by (apply elem_of_dkeys_filed_on; by exists library).
    exists (sodar_uuid library).
    pose proof Hl' as (? & _ & _ & ?)%filed_on_item.
    by assert (l' = library) as <- by (by eapply NoDup_fmap_eq).
Qed.

Lemma NoDup_dvalues_filed_on k : NoDup (dvalues (filed_on libs sel k)).
Proof.
  destruct k as [lane s]. unfold dvalues. apply NoDup_fmap_2_strong.
  - intros [u1 l1] [u2 l2] (_ & _ & _ & <-)%filed_on_item
      (_ & _ & _ & <-)%filed_on_item. simpl. by intros ->.
  - apply NoDup_dkeys_NoDup, NoDup_filed_on.
Qed.
End barcode_groups.

(** ** The barcode clashes *)

Lemma clashes_nonempty (d other : list (uuid * Library)) (library : Library) :
  clashes d other library ≠ ∅
  ↔ ∃ u, u ∈ dkeys d ∧ u ∈ dkeys other ∧ u ≠ sodar_uuid library.
Proof.
  unfold clashes. split.
  - intros [u Hu]%set_choose_L. exists u.
    apply elem_of_difference in Hu as [[H1 H2]%elem_of_intersection Hne].
    apply elem_of_list_to_set in H1, H2.
    rewrite elem_of_singleton in Hne. done.
  - intros (u & H1 & H2 & Hne) Hempty.
    assert (u ∈ (list_to_set (dkeys d) ∩ list_to_set (dkeys other)
                 : gset N) ∖ {[sodar_uuid library]}) as Hin.
    { apply elem_of_difference. split.
      - apply elem_of_intersection. by rewrite !elem_of_list_to_set.
      - by rewrite elem_of_singleton. }
    rewrite Hempty in Hin. by apply not_elem_of_empty in Hin.
Qed.

Section barcode_clashes.
Variable pretty_range : list Z → string.
Variable n_lanes : Z.
Variable libs : list Library.

Let by_barcode := g_by_barcode (gather pretty_range n_lanes libs).
Let by_barcode2 := g_by_barcode2 (gather pretty_range n_lanes libs).

Lemma by_barcode_eq : by_barcode = groups libs get_barcode_seq.
Proof. unfold by_barcode, gather. by rewrite gather_fold. Qed.

Lemma by_barcode2_eq : by_barcode2 = groups libs get_barcode_seq2.
Proof. unfold by_barcode2, gather. by rewrite gather_fold. Qed.

Lemma barcode_clash_library_fold bb2 lane d vals bad :
  (∀ library, library ∈ vals →
              is_Some (dget (lane, get_barcode_seq2 library) bb2)) →
  foldM (barcode_clash_library bb2 lane d) vals bad
  = Some (fold_left (file_event fst [] add_lane)
            (vals ≫= barcode_mark bb2 lane d) bad).
Proof.
  revert bad. induction vals as [|library vals IH]; intros bad Hall;
    [done|].
  destruct (Hall library) as [other Hother]; [left|].
  rewrite bind_cons, fold_left_app. cbn [foldM].
  unfold barcode_clash_library at 1, barcode_mark at 2.
  rewrite Hother. simpl.
  case_bool_decide; (rewrite IH; [done|]; intros ??; apply Hall; by right).
Qed.

Lemma barcode_bad_lanes_fold bb bb2 bad :
  (∀ lane s d library,
     ((lane, s), d) ∈ bb → library ∈ dvalues d →
     is_Some (dget (lane, get_barcode_seq2 library) bb2)) →
  foldM (barcode_clash bb2) bb bad
  = Some (fold_left (file_event fst [] add_lane) (barcode_marks bb bb2)
            bad).
Proof.
  revert bad. induction bb as [|[[lane s] d] bb IH]; intros bad Hall;
    [done|].
  unfold barcode_marks. rewrite bind_cons, fold_left_app. cbn [foldM].
  unfold barcode_clash at 1. rewrite barcode_clash_library_fold.
  - apply IH. intros ???? Hin. eapply Hall. by right.
  - intros library Hin. eapply Hall; [left | done].
Qed.

Lemma by_barcode2_is_Some lane s d library :
  ((lane, s), d) ∈ by_barcode → library ∈ dvalues d →
  is_Some (dget (lane, get_barcode_seq2 library) by_barcode2).
Proof.
  rewrite by_barcode_eq, by_barcode2_eq.
  intros ->%groups_item [u Hin]%elem_of_dvalues.
  apply filed_on_item in Hin as (? & ? & _ & _).
  by rewrite dget_groups_library.
Qed.

Lemma barcode_bad_lanes_eq :
  barcode_bad_lanes by_barcode by_barcode2
  = Some (fold_left (file_event fst [] add_lane)
            (barcode_marks by_barcode by_barcode2) []).
Proof.
  unfold barcode_bad_lanes. apply barcode_bad_lanes_fold.
  apply by_barcode2_is_Some.
Qed.

Lemma NoDup_barcode_bad : NoDup (dkeys (barcode_bad pretty_range n_lanes libs)).
Proof. apply NoDup_dkeys_file. constructor. Qed.

Lemma dget_barcode_bad u :
  dget u (barcode_bad pretty_range n_lanes libs)
  = match barcode_lanes pretty_range n_lanes libs u with [] => None | lanes => Some lanes end.
Proof.
  unfold barcode_bad, barcode_lanes. rewrite dget_file. simpl.
  destruct (filter _ _) as [|e es]; [done|].
  by rewrite fold_add_lane.
Qed.

Lemma elem_of_barcode_marks u lane :
  (u, lane) ∈ barcode_marks by_barcode by_barcode2
  ↔ ∃ s library,
      ((lane, s), filed_on libs get_barcode_seq (lane, s)) ∈ by_barcode
      ∧ library ∈ dvalues (filed_on libs get_barcode_seq (lane, s))
      ∧ sodar_uuid library = u
      ∧ clashes (filed_on libs get_barcode_seq (lane, s))
          (filed_on libs get_barcode_seq2 (lane, get_barcode_seq2 library))
          library ≠ ∅.
Proof.
  unfold barcode_marks. rewrite list_elem_of_bind. split.
  - intros ([[lane' s] d] & Hin & Hitem). simpl in Hin.
    apply list_elem_of_bind in Hin as (library & Hmark & Hval).
    unfold barcode_mark in Hmark.
    case_bool_decide as Hclash; [|by apply elem_of_nil in Hmark].
    apply list_elem_of_singleton in Hmark as [= -> ->].
    destruct (by_barcode2_is_Some _ _ _ _ Hitem Hval) as [other Hother].
    rewrite Hother in Hclash. simpl in Hclash.
    pose proof Hitem as Hd. rewrite by_barcode_eq in Hd.
    apply groups_item in Hd as ->.
    apply dget_elem_of in Hother. rewrite by_barcode2_eq in Hother.
    apply groups_item in Hother as ->.
    by exists s, library.
  - intros (s & library & Hitem & Hval & <- & Hclash).
    eexists. split; [|exact Hitem]. simpl.
    apply list_elem_of_bind. exists library. split; [|done].
    unfold barcode_mark.
    destruct (by_barcode2_is_Some _ _ _ _ Hitem Hval) as [other Hother].
    rewrite Hother. simpl.
    pose proof Hother as Hother'.
    apply dget_elem_of in Hother'. rewrite by_barcode2_eq in Hother'.
    apply groups_item in Hother' as ->.
    rewrite bool_decide_true by done. left.
Qed.

Lemma barcode_bad_library u :
  u ∈ dkeys (barcode_bad pretty_range n_lanes libs) →
  ∃ library, library ∈ libs ∧ sodar_uuid library = u.
Proof.
  unfold barcode_bad. rewrite dkeys_file.
  intros [Hin|([u' lane] & Hin & <-)]; [by apply elem_of_nil in Hin|].
  apply elem_of_barcode_marks in Hin as (s & library & _ & Hin & <- & _).
  apply elem_of_dvalues in Hin as [u Hin].
  apply filed_on_item in Hin as (? & _). by exists library.
Qed.
End barcode_clashes.

Section unique_barcodes.
Variable pretty_range : list Z → string.
Variable n_lanes : Z.
Variable libs : list Library.
Hypothesis Huuid : NoDup (sodar_uuid <$> libs).

Let by_barcode := g_by_barcode (gather pretty_range n_lanes libs).
Let by_barcode2 := g_by_barcode2 (gather pretty_range n_lanes libs).

Lemma clashes_filed_on library lane :
  library ∈ libs → lane ∈ lane_numbers library →
  clashes (filed_on libs get_barcode_seq (lane, get_barcode_seq library))
    (filed_on libs get_barcode_seq2 (lane, get_barcode_seq2 library))
    library ≠ ∅
  ↔ barcode_clash_on libs library lane.
Proof.
  intros Hin Hlane. rewrite clashes_nonempty. unfold barcode_clash_on.
  split.
  - intros (u & (l1 & ? & ? & ? & <-)%elem_of_dkeys_filed_on
              & (l2 & ? & ? & ? & Hu)%elem_of_dkeys_filed_on & Hne).
    assert (l2 = l1) as -> by (by eapply NoDup_fmap_eq).
    split; [done|]. by exists l1.
  - intros (_ & other & ? & ? & ? & ? & ?). exists (sodar_uuid other).
    split_and!; [| |done]; apply elem_of_dkeys_filed_on; by exists other.
Qed.

Lemma by_barcode_item library lane :
  library ∈ libs → lane ∈ lane_numbers library →
  ((lane, get_barcode_seq library),
   filed_on libs get_barcode_seq (lane, get_barcode_seq library))
  ∈ by_barcode.
Proof.
  intros Hin Hlane. apply dget_elem_of.
  unfold by_barcode. rewrite by_barcode_eq.
  by apply dget_groups_library.
Qed.

Lemma elem_of_barcode_lanes library lane :
  library ∈ libs →
  lane ∈ barcode_lanes pretty_range n_lanes libs (sodar_uuid library)
  ↔ barcode_clash_on libs library lane.
Proof.
  intros Hin. unfold barcode_lanes. rewrite list_elem_of_fmap. split.
  - intros ([u l] & -> & [Hu Hm]%list_elem_of_filter). simpl in *.
    apply elem_of_barcode_marks in Hm as (s & l' & _ & Hval & Heq & Hcl).
    apply filed_on_value in Hval as (? & ? & <-); [|done].
    assert (l' = library) as ->
      by (apply (NoDup_fmap_eq sodar_uuid libs); [done..|congruence]).
    by apply clashes_filed_on.
  - intros Hclash. exists (sodar_uuid library, lane). split; [done|].
    apply list_elem_of_filter. split; [done|].
    apply elem_of_barcode_marks.
    exists (get_barcode_seq library), library.
    pose proof Hclash as [Hlane _].
    split_and!; [by apply by_barcode_item | | done
                | by apply clashes_filed_on].
    by apply filed_on_value.
Qed.

Lemma elem_of_barcode_mark e bb2 lane d library :
  e ∈ barcode_mark bb2 lane d library → e = (sodar_uuid library, lane).
Proof.
  unfold barcode_mark. case_bool_decide; [|by intros ?%elem_of_nil].
  by intros ?%list_elem_of_singleton.
Qed.

Lemma NoDup_barcode_marks : NoDup (barcode_marks by_barcode by_barcode2).
Proof.
  unfold barcode_marks. apply NoDup_bind.
  - intros [[lane1 s1] d1] [[lane2 s2] d2] [u lane] H1 H2. simpl.
    unfold by_barcode in H1, H2. rewrite by_barcode_eq in H1, H2.
    apply groups_item in H1 as ->. apply groups_item in H2 as ->.
    intros (x1 & [= -> ->]%elem_of_barcode_mark & Hx1)%list_elem_of_bind
      (x2 & [= Hu ->]%elem_of_barcode_mark & Hx2)%list_elem_of_bind.
    apply filed_on_value in Hx1 as (? & ? & <-); [|done].
    apply filed_on_value in Hx2 as (? & ? & <-); [|done].
    by assert (x1 = x2) as -> by (by eapply NoDup_fmap_eq).
  - intros [[lane s] d] Hitem. simpl.
    unfold by_barcode in Hitem. rewrite by_barcode_eq in Hitem.
    apply groups_item in Hitem as ->.
    apply NoDup_bind; [| |apply NoDup_dvalues_filed_on].
    + intros x1 x2 e (? & _)%filed_on_value (? & _)%filed_on_value;
        [|done..].
      intros ->%elem_of_barcode_mark [= ?]%elem_of_barcode_mark.
      by eapply NoDup_fmap_eq.
    + intros x _. unfold barcode_mark.
      case_bool_decide; [apply NoDup_singleton | constructor].
  - apply NoDup_dkeys_NoDup. unfold by_barcode. rewrite by_barcode_eq.
    apply NoDup_groups.
Qed.

Lemma NoDup_barcode_lanes u :
  NoDup (barcode_lanes pretty_range n_lanes libs u).
Proof.
  unfold barcode_lanes. apply NoDup_fmap_2_strong.
  - intros [u1 l1] [u2 l2] [H1 _]%list_elem_of_filter
      [H2 _]%list_elem_of_filter. simpl in *. congruence.
  - apply NoDup_filter, NoDup_barcode_marks.
Qed.
End unique_barcodes.

(** ** The whole sample-sheet checker *)

Section whole_checker.
Variable pretty_range : list Z → string.

Lemma g_result_eq n_lanes libs :
  g_result (gather pretty_range n_lanes libs)
  = fold_left (check_library pretty_range n_lanes) libs [].
Proof. unfold gather. by rewrite gather_fold. Qed.

(** The checker raises no exception, and every entry of its report is
    the entry of the first loop, extended by the second and by the
    third loop. *)
Lemma sample_sheet_fields (self : FlowCell) :
  let n := num_lanes self in
  let libs := libraries self in
  let st := gather pretty_range n libs in
  ∃ result,
    get_sample_sheet_errors pretty_range self = Some result
    ∧ ∀ u f,
        field_of u f result
        = let r1 := field_of u f (g_result st) in
          let r2 :=
            match dget u (name_bad_lanes (g_by_name st)),
                  dget u (g_by_uuid st) with
            | Some lanes, Some library =>
                if decide (f = "name")
                then Some (default [] r1
                           ++ [name_msg pretty_range (name library) lanes])
                else r1
            | _, _ => r1
            end in
          match dget u (barcode_bad pretty_range n libs),
                dget u (g_by_uuid st) with
          | Some lanes, Some library =>
              if decide (f ∈ barcode_keys library)
              then Some (default [] r2
                         ++ [barcode_msg pretty_range library lanes])
              else r2
          | _, _ => r2
          end.
Proof.
  intros n libs st. unfold get_sample_sheet_errors.
  fold n libs st.
  destruct (report_name_fold pretty_range (g_by_uuid st)
              (name_bad_lanes (g_by_name st)) (g_result st))
    as (r2 & -> & Hr2).
  { apply NoDup_name_bad_lanes. }
  { intros u (library & Hin & <-)%name_bad_lanes_library.
    by apply by_uuid_is_Some. }
  unfold st at 1 2. rewrite barcode_bad_lanes_eq.
  fold (barcode_bad pretty_range n libs).
  destruct (report_barcode_fold pretty_range (g_by_uuid st)
              (barcode_bad pretty_range n libs) r2)
    as (r3 & -> & Hr3).
  { apply NoDup_barcode_bad. }
  { intros u (library & Hin & <-)%barcode_bad_library.
    by apply by_uuid_is_Some. }
  exists r3. split; [done|]. intros u f. rewrite Hr3, Hr2. done.
Qed.

Lemma get_sample_sheet_errors_total (self : FlowCell) :
  is_Some (get_sample_sheet_errors pretty_range self).
Proof. destruct (sample_sheet_fields self) as (r & -> & _). done. Qed.

(** The entries of a library whose UUID no other library of the flow
    cell has. *)
Lemma sample_sheet_library (self : FlowCell) (library : Library) :
  let n := num_lanes self in
  let libs := libraries self in
  let u := sodar_uuid library in
  NoDup (sodar_uuid <$> libs) → library ∈ libs →
  ∃ result,
    get_sample_sheet_errors pretty_range self = Some result
    ∧ ∀ f,
        field_of u f result
        = let r1 := checked_field pretty_range n library f None in
          let r2 :=
            match name_lanes pretty_range n libs u with
            | [] => r1
            | lanes =>
                if decide (f = "name")
                then Some (default [] r1
                           ++ [name_msg pretty_range (name library) lanes])
                else r1
            end in
          match barcode_lanes pretty_range n libs u with
          | [] => r2
          | lanes =>
              if decide (f ∈ barcode_keys library)
              then Some (default [] r2
                         ++ [barcode_msg pretty_range library lanes])
              else r2
          end.
Proof.
  intros n libs u Huuid Hin.
  destruct (sample_sheet_fields self) as (result & Hres & Hfields).
  exists result. split; [done|]. intros f. rewrite Hfields.
  subst n libs u. cbv zeta. rewrite by_uuid_library by done.
  rewrite g_result_eq, field_of_checked by done.
  rewrite dget_name_bad_lanes, dget_barcode_bad.
  destruct (name_lanes _ _ _ _), (barcode_lanes _ _ _ _); done.
Qed.
End whole_checker.

(** ** Lane numbers outside the flow cell *)

Lemma elem_of_invalid_lanes n_lanes library no :
  no ∈ invalid_lanes n_lanes library
  ↔ no ∈ lane_numbers library ∧ (no < 1 ∨ no > n_lanes).
Proof.
  unfold invalid_lanes. rewrite merge_sort_Permutation.
  rewrite list_elem_of_filter. tauto.
Qed.

Lemma elem_of_barcode_keys library f :
  f ∈ barcode_keys library
  ↔ (f = "barcode"
     ∧ (truthy (get_barcode_seq library) = true
        ∨ truthy (get_barcode_seq2 library) = false))
    ∨ (f = "barcode2"
       ∧ (truthy (get_barcode_seq2 library) = true
          ∨ truthy (get_barcode_seq library) = false)).
Proof.
  unfold barcode_keys.
  destruct (truthy (get_barcode_seq library)),
    (truthy (get_barcode_seq2 library)); simpl;
    rewrite ?elem_of_cons, ?elem_of_nil; naive_solver.
Qed.

Section invalid_lanes_claim.
Variable pretty_range : list Z → string.

(** C4: a library gets an entry under "lane" exactly when one of its
    lane numbers is outside 1..num_lanes; the entry is one message,
    which lists the sorted invalid lane numbers of the library and no
    valid one. *)
Theorem lane_errors_iff (self : FlowCell) (library : Library) :
  NoDup (sodar_uuid <$> libraries self) → library ∈ libraries self →
  ∃ result,
    get_sample_sheet_errors pretty_range self = Some result
    ∧ let bad_lanes := invalid_lanes (num_lanes self) library in
      (is_Some (field_of (sodar_uuid library) "lane" result)
       ↔ ∃ no, no ∈ lane_numbers library
               ∧ ¬ (1 ≤ no ≤ num_lanes self))
      ∧ (∀ msgs, field_of (sodar_uuid library) "lane" result = Some msgs
           → msgs = [lane_msg pretty_range bad_lanes])
      ∧ (∀ no, no ∈ bad_lanes
           ↔ no ∈ lane_numbers library ∧ ¬ (1 ≤ no ≤ num_lanes self))
      ∧ Sorted Z.le bad_lanes.
Proof.
  intros Huuid Hin.
  destruct (sample_sheet_library pretty_range self library Huuid Hin)
    as (result & Hres & Hfields).
  exists result. split; [done|]. cbv zeta.
  assert (∀ no, no ∈ invalid_lanes (num_lanes self) library
                ↔ no ∈ lane_numbers library
                  ∧ ¬ (1 ≤ no ≤ num_lanes self)) as Hbad.
  { intros no. rewrite elem_of_invalid_lanes. split; intros [? ?];
      (split; [done | lia]). }
  assert (field_of (sodar_uuid library) "lane" result
          = match invalid_lanes (num_lanes self) library with
            | [] => None
            | bad_lanes => Some [lane_msg pretty_range bad_lanes]
            end) as Hlane.
  { rewrite Hfields. cbv zeta. unfold checked_field.
    rewrite (decide_False (P := "lane" = "name")) by done.
    rewrite (decide_True (P := "lane" = "lane")) by done.
    assert ("lane" ∉ barcode_keys library) as Hkey.
    { rewrite elem_of_barcode_keys. naive_solver. }
    destruct (name_lanes _ _ _ _), (barcode_lanes _ _ _ _);
      rewrite ?(decide_False _ _ Hkey);
      by destruct (invalid_lanes _ _). }
  split_and!.
  - rewrite Hlane.
    destruct (invalid_lanes (num_lanes self) library) as [|b bs] eqn:Hb.
    + split; [by intros [? ?]|]. intros (no & Hno).
      apply Hbad in Hno. by apply elem_of_nil in Hno.
    + split; [|done]. intros _. exists b. apply Hbad. left.
  - rewrite Hlane. intros msgs.
    by destruct (invalid_lanes (num_lanes self) library); intros [= <-].
  - done.
  - apply (Sorted_merge_sort Z.le).
Qed.
End invalid_lanes_claim.

Lemma lane_errors_iff_witness :
  let library := lib 1 "Lib1" None None [2; 9] in
  let self := cell 8 [library] [] in
  NoDup (sodar_uuid <$> libraries self) ∧ library ∈ libraries self
  ∧ ∃ result,
      get_sample_sheet_errors page_range self = Some result
      ∧ field_of 1%N "lane" result
        = Some ["Flow cell does not have lane #9"].
Proof.
  intros library self.
  assert (NoDup (sodar_uuid <$> libraries self)) as Huuid by by_compute.
  assert (library ∈ libraries self) as Hin by left.
  split_and!; [done..|].
  destruct (lane_errors_iff page_range self library Huuid Hin)
    as (result & Hres & _ & Hmsg & _).
  exists result. split; [done|].
  destruct (field_of 1%N "lane" result) as [msgs|] eqn:Hf.
  - by rewrite (Hmsg msgs Hf).
  - vm_compute in Hres. injection Hres as <-. discriminate Hf.
Defined.

(** ** Libraries without lanes *)

Section no_lanes.
Variable pretty_range : list Z → string.

Lemma name_lanes_listed n_lanes libs library lane :
  NoDup (sodar_uuid <$> libs) → library ∈ libs →
  lane ∈ name_lanes pretty_range n_lanes libs (sodar_uuid library) →
  lane ∈ lane_numbers library.
Proof.
  intros Huuid Hin. unfold name_lanes. rewrite list_elem_of_fmap.
  intros ([u l] & -> & [Hu Hm]%list_elem_of_filter). simpl in *.
  apply elem_of_name_marks in Hm as (nm & l' & _ & _ & Hl' & Heq).
  apply elem_of_named_on in Hl' as (? & ? & _).
  by assert (l' = library) as <-
    by (apply (NoDup_fmap_eq sodar_uuid libs); [done..|congruence]).
Qed.

Lemma barcode_lanes_listed n_lanes libs library lane :
  NoDup (sodar_uuid <$> libs) → library ∈ libs →
  lane ∈ barcode_lanes pretty_range n_lanes libs (sodar_uuid library) →
  lane ∈ lane_numbers library.
Proof.
  intros Huuid Hin Hlane.
  by apply elem_of_barcode_lanes in Hlane as [? _].
Qed.

Lemma group_without_lanes libs sel library k d :
  lane_numbers library = [] → (k, d) ∈ groups libs sel →
  library ∉ dvalues d.
Proof.
  intros Hnone ->%groups_item [u Hin]%elem_of_dvalues.
  destruct k as [lane s].
  apply filed_on_item in Hin as (_ & Hlane & _).
  rewrite Hnone in Hlane. by apply elem_of_nil in Hlane.
Qed.

(** C9: for a library without lane numbers the checker raises no
    exception; the library is in no group of [by_name], [by_barcode]
    or [by_barcode2]; and its only possible entry in the report is
    the message about the characters of its name. *)
Theorem no_lanes_no_clash (self : FlowCell) (library : Library) :
  NoDup (sodar_uuid <$> libraries self) → library ∈ libraries self →
  lane_numbers library = [] →
  ∃ result,
    get_sample_sheet_errors pretty_range self = Some result
    ∧ (∀ f, f ≠ "name" → field_of (sodar_uuid library) f result = None)
    ∧ field_of (sodar_uuid library) "name" result
      = (if name_re_match (name library) then None
         else Some [invalid_name_msg])
    ∧ let st := gather pretty_range (num_lanes self) (libraries self) in
      (∀ k ls, (k, ls) ∈ g_by_name st → library ∉ ls)
      ∧ (∀ k d, (k, d) ∈ g_by_barcode st → library ∉ dvalues d)
      ∧ (∀ k d, (k, d) ∈ g_by_barcode2 st → library ∉ dvalues d).
Proof.
  intros Huuid Hin Hnone.
  destruct (sample_sheet_library pretty_range self library Huuid Hin)
    as (result & Hres & Hfields).
  exists result. split; [done|].
  assert (name_lanes pretty_range (num_lanes self) (libraries self)
            (sodar_uuid library) = []) as Hn.
  { destruct (name_lanes _ _ _ _) as [|lane ls] eqn:Hl; [done|].
    assert (lane ∈ lane_numbers library) as Hlane.
    { eapply name_lanes_listed; [done..|]. rewrite Hl. left. }
    rewrite Hnone in Hlane. by apply elem_of_nil in Hlane. }
  assert (barcode_lanes pretty_range (num_lanes self) (libraries self)
            (sodar_uuid library) = []) as Hb.
  { destruct (barcode_lanes _ _ _ _) as [|lane ls] eqn:Hl; [done|].
    assert (lane ∈ lane_numbers library) as Hlane.
    { eapply barcode_lanes_listed; [done..|]. rewrite Hl. left. }
    rewrite Hnone in Hlane. by apply elem_of_nil in Hlane. }
  assert (invalid_lanes (num_lanes self) library = []) as Hbad.
  { destruct (invalid_lanes _ _) as [|no ls] eqn:Hl; [done|].
    assert (no ∈ lane_numbers library) as Hlane.
    { eapply elem_of_invalid_lanes. rewrite Hl. left. }
    rewrite Hnone in Hlane. by apply elem_of_nil in Hlane. }
  cbv zeta. split_and!.
  - intros f Hf. rewrite Hfields. cbv zeta. rewrite Hn, Hb.
    unfold checked_field. rewrite Hbad.
    rewrite (decide_False (P := f = "name")) by done. by case_decide.
  - rewrite Hfields. cbv zeta. rewrite Hn, Hb.
    unfold checked_field. rewrite Hbad.
    rewrite (decide_True (P := "name" = "name")) by done.
    rewrite (decide_False (P := "name" = "lane")) by done.
    by destruct (name_re_match _).
  - intros [lane nm] ls [-> _]%by_name_item.
    intros (_ & Hlane & _)%elem_of_named_on.
    rewrite Hnone in Hlane. by apply elem_of_nil in Hlane.
  - intros k d. rewrite by_barcode_eq. by apply group_without_lanes.
  - intros k d. rewrite by_barcode2_eq. by apply group_without_lanes.
Qed.
End no_lanes.

Lemma no_lanes_no_clash_witness :
  let library := lib 2 "Lib1" (Some "AAAA") (Some "CCCC") [] in
  let self := cell 8 [lib 1 "Lib1" (Some "AAAA") (Some "CCCC") [3]; library]
                [] in
  NoDup (sodar_uuid <$> libraries self) ∧ library ∈ libraries self
  ∧ lane_numbers library = []
  ∧ ∃ result,
      get_sample_sheet_errors page_range self = Some result
      ∧ ∀ f, field_of 2%N f result = None.
Proof.
  intros library self.
  assert (NoDup (sodar_uuid <$> libraries self)) as Huuid by by_compute.
  assert (library ∈ libraries self) as Hin by (right; left).
  split_and!; [done..|].
  destruct (no_lanes_no_clash page_range self library Huuid Hin eq_refl)
    as (result & Hres & Hother & Hname & _).
  exists result. split; [done|]. intros f.
  destruct (decide (f = "name")) as [->|Hf]; [exact Hname | by apply Hother].
Defined.

(** ** Name and barcode entries of a library *)

Section entries.
Variable pretty_range : list Z → string.

Lemma name_field (self : FlowCell) (library : Library) :
  NoDup (sodar_uuid <$> libraries self) → library ∈ libraries self →
  ∃ result,
    get_sample_sheet_errors pretty_range self = Some result
    ∧ default [] (field_of (sodar_uuid library) "name" result)
      = (if name_re_match (name library) then [] else [invalid_name_msg])
        ++ match name_lanes pretty_range (num_lanes self)
                   (libraries self) (sodar_uuid library) with
           | [] => []
           | lanes => [name_msg pretty_range (name library) lanes]
           end.
Proof.
  intros Huuid Hin.
  destruct (sample_sheet_library pretty_range self library Huuid Hin)
    as (result & Hres & Hfields).
  exists result. split; [done|]. rewrite Hfields. cbv zeta.
  assert ("name" ∉ barcode_keys library) as Hkey.
  { rewrite elem_of_barcode_keys. naive_solver. }
  unfold checked_field.
  rewrite (decide_True (P := "name" = "name")) by done.
  rewrite (decide_False (P := "name" = "lane")) by done.
  destruct (name_lanes _ _ _ _), (barcode_lanes _ _ _ _);
    rewrite ?(decide_False _ _ Hkey);
    destruct (name_re_match _); simpl; by rewrite ?app_nil_r.
Qed.

Lemma barcode_field (self : FlowCell) (library : Library) (f : string) :
  NoDup (sodar_uuid <$> libraries self) → library ∈ libraries self →
  f = "barcode" ∨ f = "barcode2" →
  ∃ result,
    get_sample_sheet_errors pretty_range self = Some result
    ∧ field_of (sodar_uuid library) f result
      = match barcode_lanes pretty_range (num_lanes self)
                (libraries self) (sodar_uuid library) with
        | [] => None
        | lanes =>
            if decide (f ∈ barcode_keys library)
            then Some [barcode_msg pretty_range library lanes]
            else None
        end.
Proof.
  intros Huuid Hin Hf.
  destruct (sample_sheet_library pretty_range self library Huuid Hin)
    as (result & Hres & Hfields).
  exists result. split; [done|]. rewrite Hfields. cbv zeta.
  unfold checked_field.
  assert (f ≠ "name" ∧ f ≠ "lane") as [Hn Hl] by naive_solver.
  destruct (name_lanes _ _ _ _), (barcode_lanes _ _ _ _);
    rewrite ?(decide_False _ _ Hn), ?(decide_False _ _ Hl); simpl;
    try case_decide; done.
Qed.

(** What the checker reports as a barcode clash: a library has an
    entry under "barcode" or "barcode2" exactly when another library
    shares one of its lanes and both of its resolved sequences, the
    sequences being compared as they are resolved. *)
Lemma barcode_clash_iff (self : FlowCell) (library : Library) :
  NoDup (sodar_uuid <$> libraries self) → library ∈ libraries self →
  ∃ result,
    get_sample_sheet_errors pretty_range self = Some result
    ∧ (is_Some (field_of (sodar_uuid library) "barcode" result)
       ∨ is_Some (field_of (sodar_uuid library) "barcode2" result)
       ↔ ∃ lane, barcode_clash_on (libraries self) library lane).
Proof.
  intros Huuid Hin.
  destruct (barcode_field self library "barcode" Huuid Hin)
    as (result & Hres & Hb1); [by left|].
  destruct (barcode_field self library "barcode2" Huuid Hin)
    as (result' & Hres' & Hb2); [by right|].
  assert (result' = result) as -> by congruence.
  exists result. split; [done|]. rewrite Hb1, Hb2.
  destruct (barcode_lanes _ _ _ _) as [|lane lanes] eqn:Hl.
  - split; [by intros [[? ?]|[? ?]]|]. intros [lane Hlane].
    apply (elem_of_barcode_lanes pretty_range (num_lanes self)) in Hlane;
      [|done..].
    rewrite Hl in Hlane. by apply elem_of_nil in Hlane.
  - split.
    + intros _. exists lane.
      apply (elem_of_barcode_lanes pretty_range (num_lanes self));
        [done..|]. rewrite Hl. left.
    + intros _. unfold barcode_keys.
      destruct (truthy (get_barcode_seq library)),
        (truthy (get_barcode_seq2 library)); simpl;
        repeat case_decide; set_solver.
Qed.
End entries.

(** ** The claims about names and barcodes *)

Section name_and_barcode_claims.
Variable pretty_range : list Z → string.

Lemma distinct_pairs_no_clash libs library lane :
  NoDup (name_key <$> lane_events libs) → library ∈ libs →
  ¬ name_clash_on libs library lane.
Proof.
  intros Hpairs Hin (Hlane & other & Hother & Hne & Hname & Hlane').
  assert ((lane, other) = (lane, library)) as [= ->]; [|done].
  apply (NoDup_fmap_eq name_key (lane_events libs)); [done| | |].
  - by apply elem_of_lane_events.
  - by apply elem_of_lane_events.
  - unfold name_key. simpl. by rewrite Hname.
Qed.

(** C3, as the code has it: the "name" entry of a library is the
    message about the characters of its name, when the name does not
    match, followed by one message about uniqueness when another
    library has its name on one of its lanes.  That message lists
    every such lane once.  With pairwise distinct (lane, name) pairs
    there is no uniqueness message. *)
Theorem name_errors (self : FlowCell) (library : Library) :
  NoDup (sodar_uuid <$> libraries self) →
  (∀ l, l ∈ libraries self → NoDup (lane_numbers l)) →
  library ∈ libraries self →
  ∃ result lanes,
    get_sample_sheet_errors pretty_range self = Some result
    ∧ NoDup lanes
    ∧ (∀ lane, lane ∈ lanes
               ↔ name_clash_on (libraries self) library lane)
    ∧ default [] (field_of (sodar_uuid library) "name" result)
      = (if name_re_match (name library) then [] else [invalid_name_msg])
        ++ match lanes with
           | [] => []
           | _ => ["Library name " +:+ name library
                   +:+ " is not unique for lane" +:+ plural lanes
                   +:+ " " +:+ pretty_range lanes]
           end
    ∧ (NoDup (name_key <$> lane_events (libraries self)) → lanes = []).
Proof.
  intros Huuid Hlanes Hin.
  destruct (name_field pretty_range self library Huuid Hin)
    as (result & Hres & Hname).
  exists result,
    (name_lanes pretty_range (num_lanes self) (libraries self)
       (sodar_uuid library)).
  split_and!; [done | by apply NoDup_name_lanes | | |].
  - intros lane. by apply elem_of_name_lanes.
  - rewrite Hname. by destruct (name_lanes _ _ _ _).
  - intros Hpairs. destruct (name_lanes _ _ _ _) as [|lane ls] eqn:Hl;
      [done|].
    destruct (distinct_pairs_no_clash (libraries self) library lane);
      [done..|].
    apply (elem_of_name_lanes pretty_range (num_lanes self)); [done..|].
    rewrite Hl. left.
Qed.

(** The barcode errors of a library that shares a lane and both
    resolved sequences, compared as they are resolved, with another
    library: one message under "barcode" and "barcode2" when neither of
    its resolved sequences is set, and otherwise under the fields whose
    sequence is set.  The message holds both resolved sequences, "-"
    for one that is not set, and the clashing lanes, each one once. *)
Theorem barcode_errors (self : FlowCell) (library : Library) :
  NoDup (sodar_uuid <$> libraries self) → library ∈ libraries self →
  (∃ lane, barcode_clash_on (libraries self) library lane) →
  ∃ result lanes,
    get_sample_sheet_errors pretty_range self = Some result
    ∧ lanes ≠ [] ∧ NoDup lanes
    ∧ (∀ lane, lane ∈ lanes
               ↔ barcode_clash_on (libraries self) library lane)
    ∧ let seq1 := get_barcode_seq library in
      let seq2 := get_barcode_seq2 library in
      let neither := negb (truthy seq1) && negb (truthy seq2) in
      let msg :=
        "Barcode combination " +:+ or_dash seq1 +:+ "/" +:+ or_dash seq2
        +:+ " is not unique for lane" +:+ plural lanes +:+ " "
        +:+ pretty_range lanes in
      field_of (sodar_uuid library) "barcode" result
      = (if neither || truthy seq1 then Some [msg] else None)
      ∧ field_of (sodar_uuid library) "barcode2" result
        = (if neither || truthy seq2 then Some [msg] else None).
Proof.
  intros Huuid Hin [lane Hclash].
  destruct (barcode_field pretty_range self library "barcode" Huuid Hin)
    as (result & Hres & Hb1); [by left|].
  destruct (barcode_field pretty_range self library "barcode2" Huuid Hin)
    as (result' & Hres' & Hb2); [by right|].
  assert (result' = result) as -> by congruence.
  exists result,
    (barcode_lanes pretty_range (num_lanes self) (libraries self)
       (sodar_uuid library)).
  assert (lane ∈ barcode_lanes pretty_range (num_lanes self)
            (libraries self) (sodar_uuid library)) as Hlane
    by (by apply elem_of_barcode_lanes).
  split_and!; [done | | by apply NoDup_barcode_lanes | |].
  - intros Hnil. rewrite Hnil in Hlane. by apply elem_of_nil in Hlane.
  - intros lane'. by apply elem_of_barcode_lanes.
  - cbv zeta. rewrite Hb1, Hb2.
    destruct (barcode_lanes _ _ _ _) as [|l ls];
      [by apply elem_of_nil in Hlane|].
    unfold barcode_keys, barcode_msg.
    destruct (truthy (get_barcode_seq library)),
      (truthy (get_barcode_seq2 library)); simpl; split; by case_decide;
      set_solver.
Qed.
End name_and_barcode_claims.

(** C3 as stated fails: one library with a space in its name, alone on
    its lane, has a "name" entry although all (lane, name) pairs are
    distinct. *)
Lemma name_errors_counterexample :
  let self := cell 8 [lib 1 "Lib 1" None None [3]] [] in
  NoDup (name_key <$> lane_events (libraries self))
  ∧ ∃ result,
      get_sample_sheet_errors page_range self = Some result
      ∧ field_of 1%N "name" result = Some [invalid_name_msg].
Proof.
  split; [by_compute|]. eexists. split; [vm_compute; reflexivity|].
  reflexivity.
Qed.

Lemma name_errors_witness :
  let a := lib 1 "Lib1" None None [3] in
  let b := lib 2 "Lib1" None None [2; 3; 4] in
  let self := cell 8 [a; b] [] in
  NoDup (sodar_uuid <$> libraries self)
  ∧ (∀ l, l ∈ libraries self → NoDup (lane_numbers l))
  ∧ b ∈ libraries self
  ∧ ∃ result lanes,
      get_sample_sheet_errors page_range self = Some result
      ∧ (∀ lane, lane ∈ lanes ↔ name_clash_on (libraries self) b lane)
      ∧ default [] (field_of 2%N "name" result)
        = match lanes with
          | [] => []
          | _ => ["Library name Lib1 is not unique for lane" +:+ plural lanes
                  +:+ " " +:+ page_range lanes]
          end.
Proof.
  intros a b self.
  assert (NoDup (sodar_uuid <$> libraries self)) as Huuid by by_compute.
  assert (∀ l, l ∈ libraries self → NoDup (lane_numbers l)) as Hlanes.
  { intros l Hl. apply list_elem_of_In in Hl. simpl in Hl.
    destruct Hl as [<-|[<-|[]]]; by_compute. }
  assert (b ∈ libraries self) as Hin by (right; left).
  split_and!; [done..|].
  destruct (name_errors page_range self b Huuid Hlanes Hin)
    as (result & lanes & Hres & _ & Hiff & Hname & _).
  exists result, lanes. split_and!; [done..|]. exact Hname.
Defined.

Lemma barcode_errors_witness :
  let a := lib 1 "LibA" (Some "AAAA") (Some "CCCC") [3] in
  let b := lib 2 "LibB" (Some "AAAA") (Some "CCCC") [3; 4; 3] in
  let self := cell 8 [a; b] [] in
  NoDup (sodar_uuid <$> libraries self) ∧ b ∈ libraries self
  ∧ (∃ lane, barcode_clash_on (libraries self) b lane)
  ∧ ∃ result lanes,
      get_sample_sheet_errors page_range self = Some result
      ∧ NoDup lanes
      ∧ field_of 2%N "barcode" result
        = Some ["Barcode combination AAAA/CCCC is not unique for lane"
                +:+ plural lanes +:+ " " +:+ page_range lanes]
      ∧ field_of 2%N "barcode2" result
        = field_of 2%N "barcode" result.
Proof.
  intros a b self.
  assert (NoDup (sodar_uuid <$> libraries self)) as Huuid by by_compute.
  assert (b ∈ libraries self) as Hin by (right; left).
  assert (∃ lane, barcode_clash_on (libraries self) b lane) as Hclash.
  { exists 3. split; [left|]. exists a. split_and!; try done; left. }
  split_and!; [done..|].
  destruct (barcode_errors page_range self b Huuid Hin Hclash)
    as (result & lanes & Hres & _ & Hnd & _ & Hb1 & Hb2).
  exists result, lanes. split_and!; [done..| |].
  - exact Hb1.
  - exact (eq_trans Hb2 (eq_sym Hb1)).
Defined.

(** ** Library names *)

Lemma name_re_from_spec seen s :
  name_re_from seen s = true
  ↔ ∃ w, (seen = true ∨ w ≠ "") ∧ name_chars w = true
         ∧ (s = w ∨ s = w +:+ newline).
Proof.
  revert seen. induction s as [|c rest IH]; intros seen; simpl.
  - split.
    + intros ->. exists "". auto.
    + intros (w & Hw & _ & [<-|Hs]); [naive_solver|].
      by destruct w.
  - destruct (name_char c) eqn:Hc.
    + rewrite IH. split.
      * intros (w & _ & Hw & Hs). exists (String c w). simpl.
        rewrite Hc, Hw. split_and!; [by right | done |].
        destruct Hs as [->| ->]; auto.
      * intros (w & _ & Hw & Hs). destruct w as [|c' w]; simpl in *.
        -- destruct Hs as [?|[= -> _]]; [done|]. by vm_compute in Hc.
        -- apply andb_true_iff in Hw as [_ Hw]. exists w.
           split_and!; [by left | done |].
           destruct Hs as [[= _ ->]|[= _ ->]]; auto.
    + rewrite !andb_true_iff. split.
      * intros [[-> ->%Ascii.eqb_eq] ->%String.eqb_eq].
        exists "". auto.
      * intros (w & Hseen & Hw & Hs). destruct w as [|c' w]; simpl in *.
        -- destruct Hseen as [->|?]; [|done].
           destruct Hs as [?|[= -> ->]]; done.
        -- apply andb_true_iff in Hw as [Hc' _].
           destruct Hs as [[= -> _]|[= -> _]]; congruence.
Qed.

(** The names the check accepts: the non-empty words over letters,
    digits, "_" and "-", and these words followed by one newline. *)
Lemma name_re_match_spec s :
  name_re_match s = true
  ↔ ∃ w, w ≠ "" ∧ name_chars w = true ∧ (s = w ∨ s = w +:+ newline).
Proof.
  unfold name_re_match. rewrite name_re_from_spec.
  split; intros (w & Hw & ?); exists w; naive_solver.
Qed.

(** C10 fails on the code at a name that ends in a newline: the name
    holds a character outside the class, the pattern matches it all the
    same, and the report stays empty. *)
Theorem name_with_trailing_newline_accepted
  (pretty_range : list Z → string) :
  let nm := "Lib1" +:+ newline in
  name_chars nm = false
  ∧ name_re_match nm = true
  ∧ get_sample_sheet_errors pretty_range
      (cell 8 [lib 1 nm None None [1]] [])
    = Some [].
Proof. by vm_compute. Qed.

(** C1 fails on the code at two libraries of one lane with the same
    second sequence, the first sequence being absent for one and the
    empty string for the other: neither has its first sequence set, yet
    they are filed under different keys and no clash is reported.  With
    the first sequence absent for both, the clash is reported. *)
Theorem absent_and_empty_barcode_not_grouped
  (pretty_range : list Z → string) :
  let a := lib 1 "LibA" None (Some "CCCC") [1] in
  let b := lib 2 "LibB" (Some "") (Some "CCCC") [1] in
  let c := lib 2 "LibB" None (Some "CCCC") [1] in
  let msg := "Barcode combination -/CCCC is not unique for lane "
             +:+ pretty_range [1] in
  truthy (get_barcode_seq a) = false ∧ truthy (get_barcode_seq b) = false
  ∧ get_barcode_seq2 a = get_barcode_seq2 b
  ∧ get_sample_sheet_errors pretty_range (cell 8 [a; b] []) = Some []
  ∧ get_sample_sheet_errors pretty_range (cell 8 [a; c] [])
    = Some [(1%N, [("barcode2", [msg])]); (2%N, [("barcode2", [msg])])].
Proof. by vm_compute. Qed.

(** C2 fails on the code where C1 does.  Two libraries share lane 1
    and their second sequence, the first sequence being absent for one
    and the empty string for the other: they collide as the
    specification words it, and each has its second sequence set, so
    the claim asks for a message under "barcode2" for each of them; the
    checker reports nothing.  With the first sequence absent for both,
    the message is reported under "barcode2" and only there. *)
Theorem unset_collision_not_reported (pretty_range : list Z → string) :
  let a := lib 1 "LibA" None (Some "CCCC") [1] in
  let b := lib 2 "LibB" (Some "") (Some "CCCC") [1] in
  let c := lib 2 "LibB" None (Some "CCCC") [1] in
  let msg := "Barcode combination -/CCCC is not unique for lane "
             +:+ pretty_range [1] in
  (spec_collision_on [a; b] a 1 ∧ spec_collision_on [a; b] b 1)
  ∧ (truthy (get_barcode_seq a) = false
     ∧ truthy (get_barcode_seq2 a) = true
     ∧ truthy (get_barcode_seq b) = false
     ∧ truthy (get_barcode_seq2 b) = true)
  ∧ (∃ result,
       get_sample_sheet_errors pretty_range (cell 8 [a; b] []) = Some result
       ∧ field_of 1%N "barcode2" result = None
       ∧ field_of 2%N "barcode2" result = None)
  ∧ (∃ result,
       get_sample_sheet_errors pretty_range (cell 8 [a; c] []) = Some result
       ∧ field_of 1%N "barcode" result = None
       ∧ field_of 1%N "barcode2" result = Some [msg]
       ∧ field_of 2%N "barcode" result = None
       ∧ field_of 2%N "barcode2" result = Some [msg]).
Proof.
  intros a b c msg. split_and!; try reflexivity.
  - split; [left|]. exists b. split_and!; try done; [right|]; left.
  - split; [left|]. exists a. split_and!; try done; left.
  - eexists. split; [by vm_compute|]. by vm_compute.
  - eexists. split; [by vm_compute|]. by vm_compute.
Qed.

Lemma spec_group_id o : o ≠ Some "" → spec_group o = o.
Proof.
  unfold spec_group. destruct o as [s|]; [|done]. simpl.
  destruct (String.eqb_spec s ""); naive_solver.
Qed.

Lemma spec_collision_on_iff libs library lane :
  (∀ l, l ∈ libs →
        get_barcode_seq l ≠ Some "" ∧ get_barcode_seq2 l ≠ Some "") →
  library ∈ libs →
  spec_collision_on libs library lane ↔ barcode_clash_on libs library lane.
Proof.
  intros Hne Hin. destruct (Hne library Hin) as [Hl1 Hl2].
  unfold spec_collision_on, barcode_clash_on.
  rewrite !(spec_group_id (_ library)) by done.
  split; intros (Hl & other & Ho & Hu & Hlo & H1 & H2); (split; [done|]);
    exists other; destruct (Hne other Ho) as [Ho1 Ho2];
    rewrite !(spec_group_id (_ other)) in * by done; done.
Qed.

(** Where no resolved sequence is the empty string, the barcode errors
    are as the specification has them: a library that collides with
    another one, a sequence that is not set being one group, has one
    message under "barcode" and "barcode2" when neither of its
    sequences is set, and otherwise under the fields whose sequence is
    set.  The message holds both resolved sequences, "-" for one that
    is not set, and the lanes of the collisions, each one once. *)
Theorem barcode_errors_without_empty_sequence
  (pretty_range : list Z → string) (self : FlowCell) (library : Library) :
  NoDup (sodar_uuid <$> libraries self) → library ∈ libraries self →
  (∀ l, l ∈ libraries self →
        get_barcode_seq l ≠ Some "" ∧ get_barcode_seq2 l ≠ Some "") →
  (∃ lane, spec_collision_on (libraries self) library lane) →
  ∃ result lanes,
    get_sample_sheet_errors pretty_range self = Some result
    ∧ lanes ≠ [] ∧ NoDup lanes
    ∧ (∀ lane, lane ∈ lanes
               ↔ spec_collision_on (libraries self) library lane)
    ∧ let seq1 := get_barcode_seq library in
      let seq2 := get_barcode_seq2 library in
      let neither := negb (truthy seq1) && negb (truthy seq2) in
      let msg :=
        "Barcode combination " +:+ or_dash seq1 +:+ "/" +:+ or_dash seq2
        +:+ " is not unique for lane" +:+ plural lanes +:+ " "
        +:+ pretty_range lanes in
      field_of (sodar_uuid library) "barcode" result
      = (if neither || truthy seq1 then Some [msg] else None)
      ∧ field_of (sodar_uuid library) "barcode2" result
        = (if neither || truthy seq2 then Some [msg] else None).
Proof.
  intros Huuid Hin Hne [lane Hlane].
  destruct (barcode_errors pretty_range self library Huuid Hin)
    as (result & lanes & Hres & Hnil & Hnd & Hlanes & Hfields).
  { exists lane. by apply spec_collision_on_iff. }
  exists result, lanes. split_and!; [done..| |done].
  intros lane'. rewrite Hlanes. symmetry. by apply spec_collision_on_iff.
Qed.

Lemma barcode_errors_without_empty_sequence_witness :
  let a := lib 1 "LibA" None (Some "CCCC") [3] in
  let b := lib 2 "LibB" None (Some "CCCC") [3; 4; 3] in
  let self := cell 8 [a; b] [] in
  NoDup (sodar_uuid <$> libraries self) ∧ b ∈ libraries self
  ∧ (∃ lane, spec_collision_on (libraries self) b lane)
  ∧ ∃ result lanes,
      get_sample_sheet_errors page_range self = Some result
      ∧ NoDup lanes
      ∧ field_of 2%N "barcode" result = None
      ∧ field_of 2%N "barcode2" result
        = Some ["Barcode combination -/CCCC is not unique for lane"
                +:+ plural lanes +:+ " " +:+ page_range lanes].
Proof.
  intros a b self.
  assert (NoDup (sodar_uuid <$> libraries self)) as Huuid by by_compute.
  assert (b ∈ libraries self) as Hin by (right; left).
  assert (∀ l, l ∈ libraries self →
               get_barcode_seq l ≠ Some "" ∧ get_barcode_seq2 l ≠ Some "")
    as Hne.
  { intros l [->|[->|[]%elem_of_nil]%elem_of_cons]%elem_of_cons; by split. }
  assert (∃ lane, spec_collision_on (libraries self) b lane) as Hclash.
  { exists 3. split; [left|]. exists a. split_and!; try done; left. }
  split_and!; [done..|].
  destruct (barcode_errors_without_empty_sequence page_range self b
              Huuid Hin Hne Hclash)
    as (result & lanes & Hres & _ & Hnd & _ & Hb1 & Hb2).
  exists result, lanes. split_and!; [done..| |].
  - exact Hb1.
  - exact Hb2.
Defined.

(** ** The caches *)



(** Whatever the cache holds, a call that directly follows another call
    on the same flow cell returns the same report. *)
Lemma cached_again {R : Type} (body : FlowCell → option R) self cache :
  (LruCache.cached body self (LruCache.cached body self cache).2).1
  = (LruCache.cached body self cache).1.
Proof.
  unfold LruCache.cached at 2 3.
  destruct (dget (pk self) cache) as [r|] eqn:Hc; simpl.
  - unfold LruCache.cached. simpl. by rewrite decide_True.
  - destruct (body self) as [r|] eqn:Hb; simpl.
    + unfold LruCache.cached. simpl. by rewrite decide_True.
    + unfold LruCache.cached. by rewrite Hc, Hb.
Qed.


Section repeatable.
Variable pretty_range : list Z → string.



End repeatable.



(** ** References take precedence over literal sequences *)

Lemma get_barcode_seq_effective library :
  get_barcode_seq (effective library) = get_barcode_seq library.
Proof. unfold get_barcode_seq. simpl. by destruct (barcode library). Qed.

Lemma get_barcode_seq2_effective library :
  get_barcode_seq2 (effective library) = get_barcode_seq2 library.
Proof. unfold get_barcode_seq2. simpl. by destruct (barcode2 library). Qed.

Lemma expect_library_effective read_no acc library :
  expect_library read_no acc (effective library)
  = expect_library read_no acc library.
Proof.
  unfold expect_library. simpl. destruct (read_no =? 0).
  - by destruct (barcode library).
  - by destruct (barcode2 library).
Qed.

Lemma expected_seqs_of_effective libs hist :
  expected_seqs_of (effective <$> libs) hist = expected_seqs_of libs hist.
Proof.
  unfold expected_seqs_of, libraries_on.
  generalize (∅ : gset string) as acc.
  induction libs as [|library libs IH]; intros acc; [done|].
  rewrite fmap_cons, !filter_cons. simpl.
  destruct (decide (lane hist ∈ lane_numbers library)); [|done].
  simpl. by rewrite expect_library_effective.
Qed.

Lemma get_index_errors_effective self :
  get_index_errors
    {| pk := pk self; num_lanes := num_lanes self;
       libraries := effective <$> libraries self;
       index_histograms := index_histograms self |}
  = get_index_errors self.
Proof.
  unfold get_index_errors. simpl.
  generalize ([] : list ((Z * Z * string) * list string)) as result.
  induction (index_histograms self) as [|h hs IH]; intros result; [done|].
  simpl. rewrite IH. f_equal. unfold check_histogram.
  by rewrite expected_seqs_of_effective.
Qed.

Section vmap_facts.
Context {K A B : Type} `{EqDecision K}.
Variable g : A → B.

Lemma dupd_vmap k dflt dflt' f f' (d : list (K * A)) :
  g (f dflt) = f' dflt' → (∀ v, g (f v) = f' (g v)) →
  dupd k dflt' f' (vmap g d) = vmap g (dupd k dflt f d).
Proof.
  intros Hd Hf. unfold vmap. induction d as [|[k0 v0] d IH]; simpl.
  - by rewrite Hd.
  - case_decide; simpl; [by rewrite Hf|]. f_equal. apply IH.
Qed.

Lemma dset_vmap k v (d : list (K * A)) :
  dset k (g v) (vmap g d) = vmap g (dset k v d).
Proof. unfold dset. by apply dupd_vmap. Qed.

Lemma dget_vmap k (d : list (K * A)) : dget k (vmap g d) = g <$> dget k d.
Proof.
  unfold vmap. induction d as [|[k0 v0] d IH]; simpl; [done|].
  by case_decide.
Qed.

Lemma dkeys_vmap (d : list (K * A)) : dkeys (vmap g d) = dkeys d.
Proof. unfold dkeys, vmap. by rewrite <- list_fmap_compose. Qed.

Lemma dvalues_vmap (d : list (K * A)) : dvalues (vmap g d) = g <$> dvalues d.
Proof. unfold dvalues, vmap. by rewrite <- !list_fmap_compose. Qed.
End vmap_facts.

Lemma foldM_ext {A B : Type} (f g : B → A → option B) l b :
  (∀ b x, x ∈ l → f b x = g b x) → foldM f l b = foldM g l b.
Proof.
  revert b. induction l as [|x l IH]; intros b Hfg; [done|].
  simpl. rewrite Hfg by left. destruct (g b x); [|done].
  apply IH. intros ???. apply Hfg. by right.
Qed.

Lemma foldM_fmap {A A' B : Type} (f : B → A' → option B) (h : A → A') l b :
  foldM f (h <$> l) b = foldM (λ b x, f b (h x)) l b.
Proof.
  revert b. induction l as [|x l IH]; intros b; [done|].
  simpl. destruct (f b (h x)); [apply IH | done].
Qed.

Lemma foldM_vmap {K A A' B : Type} (f : B → K * A' → option B) (g : A → A')
  (d : list (K * A)) b :
  foldM f (vmap g d) b = foldM (λ b kv, f b (kv.1, g kv.2)) d b.
Proof. apply foldM_fmap. Qed.

Section effective_sheet.
Variable pretty_range : list Z → string.

Lemma gather_lane_effective library st lane :
  gather_lane (effective library) (effective_gathered st) lane
  = effective_gathered (gather_lane library st lane).
Proof.
  unfold gather_lane, effective_gathered. simpl.
  rewrite get_barcode_seq_effective, get_barcode_seq2_effective.
  f_equal.
  - apply dupd_vmap; [done|]. intros v. by rewrite fmap_app.
  - apply dupd_vmap; [done|]. intros v. by rewrite <- dset_vmap.
  - apply dupd_vmap; [done|]. intros v. by rewrite <- dset_vmap.
Qed.

Lemma gather_library_effective n_lanes st library :
  gather_library pretty_range n_lanes (effective_gathered st)
    (effective library)
  = effective_gathered (gather_library pretty_range n_lanes st library).
Proof.
  unfold gather_library.
  change (lane_numbers (effective library)) with (lane_numbers library).
  match goal with
  | |- fold_left _ _ ?s1 = effective_gathered (fold_left _ _ ?s2) =>
      assert (s1 = effective_gathered s2) as ->
  end.
  { unfold effective_gathered. simpl. f_equal. apply dset_vmap. }
  generalize (lane_numbers library) as lanes.
  match goal with
  | |- ∀ lanes, fold_left _ _ (effective_gathered ?s) = _ =>
      generalize s
  end.
  intros s lanes. revert s.
  induction lanes as [|lane lanes IH]; intros s; [done|].
  simpl. by rewrite gather_lane_effective, IH.
Qed.

Lemma gather_effective n_lanes libs :
  gather pretty_range n_lanes (effective <$> libs)
  = effective_gathered (gather pretty_range n_lanes libs).
Proof.
  unfold gather.
  change {| g_result := []; g_by_uuid := []; g_by_name := [];
            g_by_barcode := []; g_by_barcode2 := [] |}
    with (effective_gathered
            {| g_result := []; g_by_uuid := []; g_by_name := [];
               g_by_barcode := []; g_by_barcode2 := [] |}) at 1.
  generalize {| g_result := []; g_by_uuid := []; g_by_name := [];
                g_by_barcode := []; g_by_barcode2 := [] |} as st.
  induction libs as [|library libs IH]; intros st; [done|].
  rewrite fmap_cons. simpl. by rewrite gather_library_effective, IH.
Qed.

Lemma name_bad_lanes_effective by_name :
  name_bad_lanes (vmap (fmap effective) by_name) = name_bad_lanes by_name.
Proof.
  unfold name_bad_lanes. generalize ([] : list (uuid * list Z)) as bad.
  induction by_name as [|[[lane nm] ls] d IH]; intros bad; [done|].
  simpl. rewrite IH. f_equal. rewrite length_fmap.
  case_bool_decide; [|done]. clear. revert bad.
  induction ls as [|l ls IH]; intros bad; [done|]. simpl. by rewrite IH.
Qed.

Lemma report_name_effective by_uuid bad result :
  foldM (report_name pretty_range (vmap effective by_uuid)) bad result
  = foldM (report_name pretty_range by_uuid) bad result.
Proof.
  apply foldM_ext. intros r [u lanes] _. unfold report_name.
  rewrite dget_vmap. by destruct (dget u by_uuid).
Qed.

Lemma barcode_keys_effective library :
  barcode_keys (effective library) = barcode_keys library.
Proof.
  unfold barcode_keys.
  by rewrite get_barcode_seq_effective, get_barcode_seq2_effective.
Qed.

Lemma report_barcode_effective by_uuid bad result :
  foldM (report_barcode pretty_range (vmap effective by_uuid)) bad result
  = foldM (report_barcode pretty_range by_uuid) bad result.
Proof.
  apply foldM_ext. intros r [u lanes] _. unfold report_barcode.
  rewrite dget_vmap. destruct (dget u by_uuid) as [library|]; [|done].
  simpl. rewrite barcode_keys_effective. unfold barcode_msg.
  by rewrite get_barcode_seq_effective, get_barcode_seq2_effective.
Qed.

Lemma barcode_bad_lanes_effective bb bb2 :
  barcode_bad_lanes (vmap (vmap effective) bb) (vmap (vmap effective) bb2)
  = barcode_bad_lanes bb bb2.
Proof.
  unfold barcode_bad_lanes. rewrite foldM_vmap.
  apply foldM_ext. intros bad [[lane s] d] _. unfold barcode_clash. simpl.
  rewrite dvalues_vmap, foldM_fmap. apply foldM_ext.
  intros bad' library _. unfold barcode_clash_library.
  rewrite get_barcode_seq2_effective, dget_vmap.
  destruct (dget _ bb2) as [other|]; [|done]. simpl.
  unfold clashes. by rewrite !dkeys_vmap.
Qed.

Lemma get_sample_sheet_errors_effective self :
  get_sample_sheet_errors pretty_range
    {| pk := pk self; num_lanes := num_lanes self;
       libraries := effective <$> libraries self;
       index_histograms := index_histograms self |}
  = get_sample_sheet_errors pretty_range self.
Proof.
  unfold get_sample_sheet_errors. simpl.
  rewrite gather_effective. unfold effective_gathered. simpl.
  rewrite name_bad_lanes_effective, report_name_effective.
  rewrite barcode_bad_lanes_effective.
  destruct (foldM (report_name _ _) _ _); [|done].
  destruct (barcode_bad_lanes _ _); [|done].
  apply report_barcode_effective.
Qed.

End effective_sheet.

Section reference_use.
Variable pretty_range : list Z → string.

Lemma reference_expected (self : FlowCell) (library : Library)
  (entry : BarcodeSetEntry) (lane r : Z) :
  library ∈ libraries self → lane ∈ lane_numbers library →
  (if r =? 0 then barcode library else barcode2 library) = Some entry →
  dget (lane, r, sequence entry) (get_index_errors self) = None.
Proof.
  intros Hin Hlane Href.
  destruct (dget _ (get_index_errors self)) as [v|] eqn:Hget; [|done].
  exfalso. unfold get_index_errors in Hget.
  apply dget_index_errors in Hget
    as [(hist & Hhist & Hl & Hr & _ & HN & Hexp) _].
  simpl in Hl, Hr, HN, Hexp. apply Hexp.
  apply elem_of_expected_seqs_of; [by apply all_N_false_nonempty|].
  exists library. rewrite Hl, Hr. split_and!; [done..|].
  unfold resolved_for, get_barcode_seq, get_barcode_seq2.
  destruct (r =? 0); by rewrite Href.
Qed.

Lemma shadowed_literal_flagged (self : FlowCell) (hist : LaneIndexHistogram)
  (t : string) :
  hist ∈ index_histograms self → t ∈ dkeys (histogram hist) →
  all_N t = false →
  (∀ other, other ∈ libraries self → lane hist ∈ lane_numbers other →
            resolved_for (index_read_no hist) other ≠ Some t) →
  dget (lane hist, index_read_no hist, t) (get_index_errors self)
  = Some [index_msg t (lane hist) (index_read_no hist)].
Proof.
  intros Hhist Hobs HN Hno. unfold get_index_errors.
  apply dget_index_errors. split; [|done]. exists hist.
  split; [done|]. unfold flags. simpl. split_and!; [done..|].
  rewrite elem_of_expected_seqs_of by (by apply all_N_false_nonempty).
  intros (other & Ho & Hl & Hres). by apply (Hno other).
Qed.

Lemma truthy_Some s : s ≠ "" → truthy (Some s) = true.
Proof. intros Hs. simpl. by apply negb_true_iff, String.eqb_neq. Qed.

(** C8: the resolved sequence of a slot is the sequence of the
    referenced entry when a reference is set and the literal sequence
    otherwise, and every checker uses the sequence of the reference
    where one is set.  The reports do not depend on the literal of such
    a slot.  The index checker expects the sequence of the reference on
    every lane of the library, and flags the literal the reference
    shadows like any sequence no library has.  The sample-sheet checker
    reports libraries whose references have the same sequences on a
    shared lane, prints the sequences of the references, and reports no
    clash of libraries whose references have different sequences, even
    when their literals are the same. *)
Theorem reference_takes_precedence (self : FlowCell) (library : Library) :
  NoDup (sodar_uuid <$> libraries self) → library ∈ libraries self →
  (get_barcode_seq library
   = match barcode library with
     | Some entry => Some (sequence entry)
     | None => barcode_seq library
     end
   ∧ get_barcode_seq2 library
     = match barcode2 library with
       | Some entry => Some (sequence entry)
       | None => barcode_seq2 library
       end)
  ∧ (∀ self',
       num_lanes self' = num_lanes self →
       index_histograms self' = index_histograms self →
       effective <$> libraries self' = effective <$> libraries self →
       get_index_errors self' = get_index_errors self
       ∧ get_sample_sheet_errors pretty_range self'
         = get_sample_sheet_errors pretty_range self)
  ∧ (∀ entry lane,
       barcode library = Some entry → lane ∈ lane_numbers library →
       dget (lane, 0, sequence entry) (get_index_errors self) = None)
  ∧ (∀ entry lane r,
       barcode2 library = Some entry → r ≠ 0 → lane ∈ lane_numbers library →
       dget (lane, r, sequence entry) (get_index_errors self) = None)
  ∧ (∀ entry hist t,
       barcode library = Some entry → barcode_seq library = Some t →
       sequence entry ≠ t →
       hist ∈ index_histograms self → index_read_no hist = 0 →
       t ∈ dkeys (histogram hist) → all_N t = false →
       (∀ other, other ∈ libraries self →
                 sodar_uuid other ≠ sodar_uuid library →
                 lane hist ∈ lane_numbers other →
                 get_barcode_seq other ≠ Some t) →
       dget (lane hist, 0, t) (get_index_errors self)
       = Some [index_msg t (lane hist) 0])
  ∧ (∀ e1 e2 other o1 o2 lane,
       barcode library = Some e1 → barcode2 library = Some e2 →
       other ∈ libraries self → sodar_uuid other ≠ sodar_uuid library →
       barcode other = Some o1 → barcode2 other = Some o2 →
       sequence o1 = sequence e1 → sequence o2 = sequence e2 →
       lane ∈ lane_numbers library → lane ∈ lane_numbers other →
       ∃ result lanes,
         get_sample_sheet_errors pretty_range self = Some result
         ∧ lane ∈ lanes
         ∧ let msg :=
             "Barcode combination " +:+ or_dash (Some (sequence e1))
             +:+ "/" +:+ or_dash (Some (sequence e2))
             +:+ " is not unique for lane" +:+ plural lanes +:+ " "
             +:+ pretty_range lanes in
           (sequence e1 ≠ "" →
            field_of (sodar_uuid library) "barcode" result = Some [msg])
           ∧ (sequence e2 ≠ "" →
              field_of (sodar_uuid library) "barcode2" result = Some [msg]))
  ∧ (∀ e1,
       barcode library = Some e1 →
       (∀ other, other ∈ libraries self →
                 sodar_uuid other ≠ sodar_uuid library →
                 ∃ o1, barcode other = Some o1
                       ∧ sequence o1 ≠ sequence e1) →
       ∃ result,
         get_sample_sheet_errors pretty_range self = Some result
         ∧ field_of (sodar_uuid library) "barcode" result = None
         ∧ field_of (sodar_uuid library) "barcode2" result = None).
Proof.
  intros Huuid Hin.
  destruct (barcode_field pretty_range self library "barcode" Huuid Hin)
    as (result & Hres & Hb1); [by left|].
  destruct (barcode_field pretty_range self library "barcode2" Huuid Hin)
    as (result' & Hres' & Hb2); [by right|].
  assert (result' = result) as -> by congruence. clear Hres'.
  split_and!.
  - done.
  - done.
  - intros self' Hn Hh Hl. split.
    + rewrite <- (get_index_errors_effective self'),
        <- (get_index_errors_effective self).
      unfold get_index_errors. simpl. by rewrite Hl, Hh.
    + rewrite <- (get_sample_sheet_errors_effective pretty_range self'),
        <- (get_sample_sheet_errors_effective pretty_range self).
      unfold get_sample_sheet_errors. simpl. by rewrite Hl, Hn.
  - intros entry lane Href Hlane.
    by apply (reference_expected self library).
  - intros entry lane r Href Hr Hlane.
    apply (reference_expected self library); [done..|].
    by destruct (Z.eqb_spec r 0).
  - intros entry hist t Href Hlit Hne Hhist Hread Hobs HN Hothers.
    rewrite <- Hread. apply shadowed_literal_flagged; [done..|].
    intros other Ho Hlane. rewrite Hread. unfold resolved_for. simpl.
    destruct (decide (sodar_uuid other = sodar_uuid library)) as [Hu|Hu].
    + assert (other = library) as ->
        by (by apply (NoDup_fmap_eq sodar_uuid (libraries self))).
      unfold get_barcode_seq. rewrite Href. congruence.
    + by apply Hothers.
  - intros e1 e2 other o1 o2 lane Hr1 Hr2 Ho Hne Ho1 Ho2 Hs1 Hs2 Hl Hlo.
    exists result,
      (barcode_lanes pretty_range (num_lanes self) (libraries self)
         (sodar_uuid library)).
    assert (lane ∈ barcode_lanes pretty_range (num_lanes self)
              (libraries self) (sodar_uuid library)) as Hlane.
    { apply elem_of_barcode_lanes; [done..|]. split; [done|].
      exists other. unfold get_barcode_seq, get_barcode_seq2.
      rewrite Hr1, Hr2, Ho1, Ho2, Hs1, Hs2. by split_and!. }
    split_and!; [done..|]. cbv zeta. split; intros Hs.
    + rewrite Hb1.
      destruct (barcode_lanes _ _ _ _); [by apply elem_of_nil in Hlane|].
      rewrite decide_True.
      * unfold barcode_msg, get_barcode_seq, get_barcode_seq2.
        by rewrite Hr1, Hr2.
      * apply elem_of_barcode_keys. left. split; [done|]. left.
        unfold get_barcode_seq. rewrite Hr1. by apply truthy_Some.
    + rewrite Hb2.
      destruct (barcode_lanes _ _ _ _); [by apply elem_of_nil in Hlane|].
      rewrite decide_True.
      * unfold barcode_msg, get_barcode_seq, get_barcode_seq2.
        by rewrite Hr1, Hr2.
      * apply elem_of_barcode_keys. right. split; [done|]. left.
        unfold get_barcode_seq2. rewrite Hr2. by apply truthy_Some.
  - intros e1 Hr1 Hothers. exists result. split; [done|].
    rewrite Hb1, Hb2.
    destruct (barcode_lanes _ _ _ _) as [|lane lanes] eqn:Hlanes; [done|].
    exfalso.
    assert (barcode_clash_on (libraries self) library lane)
      as (_ & other & Ho & Hne & _ & Heq & _).
    { apply (elem_of_barcode_lanes pretty_range (num_lanes self));
        [done..|]. rewrite Hlanes. left. }
    destruct (Hothers other Ho Hne) as (o1 & Ho1 & Hs).
    unfold get_barcode_seq in Heq. rewrite Hr1, Ho1 in Heq. congruence.
Qed.
End reference_use.

Lemma reference_takes_precedence_witness :
  let entry1 := {| sequence := "AAAA" |} in
  let entry2 := {| sequence := "CCCC" |} in
  let referring (u : uuid) (nm : string) (s : option string) :=
    {| sodar_uuid := u; name := nm; barcode := Some entry1;
       barcode_seq := s; barcode2 := Some entry2;
       barcode_seq2 := Some "GGGG"; lane_numbers := [1] |} in
  let a := referring 1%N "LibA" (Some "TTTT") in
  let b := referring 2%N "LibB" (Some "ACGT") in
  let hist := {| lane := 1; index_read_no := 0; sample_size := 8;
                 histogram := [("AAAA", 5); ("TTTT", 3)] |} in
  let self := cell 8 [a; b] [hist] in
  NoDup (sodar_uuid <$> libraries self) ∧ a ∈ libraries self
  ∧ dget (1, 0, "TTTT") (get_index_errors self)
    = Some [index_msg "TTTT" 1 0]
  ∧ dget (1, 0, "AAAA") (get_index_errors self) = None
  ∧ ∃ result lanes,
      get_sample_sheet_errors page_range self = Some result
      ∧ 1 ∈ lanes
      ∧ field_of 1%N "barcode" result
        = Some ["Barcode combination AAAA/CCCC is not unique for lane"
                +:+ plural lanes +:+ " " +:+ page_range lanes]
      ∧ field_of 1%N "barcode2" result = field_of 1%N "barcode" result.
Proof.
  intros entry1 entry2 referring a b hist self.
  assert (NoDup (sodar_uuid <$> libraries self)) as Huuid by by_compute.
  assert (a ∈ libraries self) as Hin by left.
  destruct (reference_takes_precedence page_range self a Huuid Hin)
    as (_ & _ & Hexpected & _ & Hshadowed & Hclash & _).
  split_and!; [done | done | | |].
  - apply (Hshadowed entry1 hist "TTTT");
      [reflexivity | reflexivity | done | left | reflexivity
      | right; left | reflexivity |].
    intros other [->|[->|[]%elem_of_nil]%elem_of_cons]%elem_of_cons;
      by intros.
  - apply (Hexpected entry1 1); [reflexivity | left].
  - destruct (Hclash entry1 entry2 b entry1 entry2 1)
      as (result & lanes & Hres & Hlane & H1 & H2);
      [reflexivity | reflexivity | right; left | done | reflexivity..
      | left | left |].
    exists result, lanes. split_and!; [done..| |].
    + by apply H1.
    + exact (eq_trans (H2 ltac:(done)) (eq_sym (H1 ltac:(done)))).
Defined.

(** ** The examples of the specification *)

Example same_name_on_lane_3 :
  get_sample_sheet_errors page_range
    (cell 8 [lib 1 "Lib1" (Some "AAAA") None [3];
             lib 2 "Lib1" (Some "CCCC") None [3]] [])
  = Some [(1%N, [("name", ["Library name Lib1 is not unique for lane 3"])]);
          (2%N, [("name", ["Library name Lib1 is not unique for lane 3"])])].
Proof. reflexivity. Qed.

Example names_on_lanes_2_to_4 :
  get_sample_sheet_errors page_range
    (cell 8 [lib 1 "Lib1" (Some "AAAA") None [2; 3; 4; 6];
             lib 2 "Lib1" (Some "CCCC") None [4; 3; 2; 7]] [])
  = Some [(1%N, [("name", ["Library name Lib1 is not unique for lanes 2-4"])]);
          (2%N, [("name", ["Library name Lib1 is not unique for lanes 2-4"])])].
Proof. reflexivity. Qed.

Example one_shared_index_is_no_clash :
  get_sample_sheet_errors page_range
    (cell 8 [lib 1 "LibA" (Some "AAAA") (Some "CCCC") [1];
             lib 2 "LibB" (Some "AAAA") (Some "GGGG") [1]] [])
  = Some [].
Proof. reflexivity. Qed.

Example both_shared_indices_clash :
  get_sample_sheet_errors page_range
    (cell 8 [lib 1 "LibA" (Some "AAAA") (Some "CCCC") [1];
             lib 2 "LibB" (Some "AAAA") (Some "CCCC") [1]] [])
  = Some
      [(1%N,
        [("barcode",
          ["Barcode combination AAAA/CCCC is not unique for lane 1"]);
         ("barcode2",
          ["Barcode combination AAAA/CCCC is not unique for lane 1"])]);
       (2%N,
        [("barcode",
          ["Barcode combination AAAA/CCCC is not unique for lane 1"]);
         ("barcode2",
          ["Barcode combination AAAA/CCCC is not unique for lane 1"])])].
Proof. reflexivity. Qed.

Example observed_but_not_expected :
  get_index_errors
    (cell 8 [lib 1 "LibA" (Some "AAAA") None [1]]
       [ {| lane := 1; index_read_no := 0; sample_size := 108;
            histogram := [("AAAA", 100); ("NNNN", 5); ("TTTT", 3)] |} ])
  = [((1, 0, "TTTT"),
      ["found barcode TTTT on lane 1 and index read 0 in BCLs but not in sample sheet"])].
Proof. reflexivity. Qed.

(** * Further properties *)

(** ** The shape of the sample-sheet report *)

Lemma elem_of_dupd {K V : Type} `{EqDecision K} (k k' : K) (v dflt : V) f d :
  (k, v) ∈ dupd k' dflt f d →
  (k, v) ∈ d ∨ (k = k' ∧ ((∃ v0, (k', v0) ∈ d ∧ v = f v0) ∨ v = f dflt)).
Proof.
  induction d as [|[k0 v0] d IH]; simpl.
  - intros [= -> ->]%list_elem_of_singleton. right. split; [done|]. by right.
  - case_decide as Hk.
    + subst k0. intros [[= -> ->]|Hin]%elem_of_cons.
      * right. split; [done|]. left. exists v0. split; [left | done].
      * left. by right.
    + intros [[= -> ->]|Hin]%elem_of_cons; [left; left|].
      destruct (IH Hin) as [?|(-> & [(v1 & ? & ->)| ->])].
      * left. by right.
      * right. split; [done|]. left. exists v1. split; [by right | done].
      * right. split; [done|]. by right.
Qed.

Lemma dupd_nonempty {K V : Type} `{EqDecision K} (k : K) (dflt : V) f d :
  dupd k dflt f d ≠ [].
Proof. destruct d as [|[k0 v0] d]; simpl; [done|]. by case_decide. Qed.

Section report_shape.
Variable pretty_range : list Z → string.
Variable libs : list Library.

Lemma fields_ok_dupd f0 dflt g fields :
  f0 ∈ report_fields → g dflt ≠ [] → (∀ msgs, msgs ≠ [] → g msgs ≠ []) →
  fields_ok fields → fields_ok (dupd f0 dflt g fields).
Proof.
  intros Hf0 Hd Hg [Hnd Hall]. split; [by apply NoDup_dkeys_dupd|].
  intros f msgs [Hin|(-> & [(m0 & Hin & ->)| ->])]%elem_of_dupd.
  - by apply Hall.
  - split; [done|]. apply Hg. by apply (Hall f0).
  - done.
Qed.

Lemma well_formed_dupd u0 g result :
  u0 ∈ sodar_uuid <$> libs →
  (∀ fields, fields_ok fields → fields_ok (g fields) ∧ g fields ≠ []) →
  well_formed_report libs result →
  well_formed_report libs (dupd u0 [] g result).
Proof.
  intros Hu0 Hg [Hnd Hall]. split; [by apply NoDup_dkeys_dupd|].
  intros u fields [Hin|(-> & [(m0 & Hin & ->)| ->])]%elem_of_dupd.
  - by apply Hall.
  - destruct (Hall u0 m0 Hin) as (_ & _ & Hk & Hf).
    destruct (Hg m0) as [[? ?] ?]; [by split|]. done.
  - destruct (Hg []) as [[? ?] ?]; [|done].
    split; [constructor|]. by intros ?? ?%elem_of_nil.
Qed.

Lemma well_formed_add_error u0 f0 msg result :
  u0 ∈ sodar_uuid <$> libs → f0 ∈ report_fields →
  well_formed_report libs result →
  well_formed_report libs (add_error u0 f0 msg result).
Proof.
  intros Hu0 Hf0. apply well_formed_dupd; [done|]. intros fields Hok.
  split; [|apply dupd_nonempty].
  apply fields_ok_dupd; [done | done | | done].
  intros msgs _. by destruct msgs.
Qed.

Lemma well_formed_default_error u0 f0 msgs result :
  u0 ∈ sodar_uuid <$> libs → f0 ∈ report_fields → msgs ≠ [] →
  well_formed_report libs result →
  well_formed_report libs (default_error u0 f0 msgs result).
Proof.
  intros Hu0 Hf0 Hmsgs. apply well_formed_dupd; [done|]. intros fields Hok.
  split; [|apply dupd_nonempty]. by apply fields_ok_dupd.
Qed.

Lemma well_formed_check_library n_lanes library result :
  library ∈ libs → well_formed_report libs result →
  well_formed_report libs (check_library pretty_range n_lanes result library).
Proof.
  intros Hin Hwf.
  assert (sodar_uuid library ∈ sodar_uuid <$> libs) as Hu
    by (by apply list_elem_of_fmap_2).
  unfold check_library, check_lanes, check_name.
  assert (well_formed_report libs
            (if name_re_match (name library) then result
             else add_error (sodar_uuid library) "name" invalid_name_msg
                    result)) as Hwf1.
  { destruct (name_re_match _); [done|].
    apply well_formed_add_error; [done | set_solver | done]. }
  destruct (invalid_lanes n_lanes library); [done|].
  apply well_formed_default_error; [done | set_solver | done | done].
Qed.

Lemma well_formed_first_loop n_lanes ls result :
  (∀ library, library ∈ ls → library ∈ libs) →
  well_formed_report libs result →
  well_formed_report libs
    (fold_left (check_library pretty_range n_lanes) ls result).
Proof.
  revert result. induction ls as [|l ls IH]; intros result Hsub Hwf; [done|].
  simpl. apply IH; [intros ? ?; apply Hsub; by right|].
  apply well_formed_check_library; [apply Hsub; left | done].
Qed.

Lemma foldM_invariant {A B : Type} (I : B → Prop) (f : B → A → option B)
  l b b' :
  (∀ b x b', x ∈ l → I b → f b x = Some b' → I b') →
  I b → foldM f l b = Some b' → I b'.
Proof.
  revert b. induction l as [|x l IH]; intros b Hf Hb; simpl.
  - by intros [= <-].
  - destruct (f b x) as [b1|] eqn:Hx; [|done].
    apply IH; [|by eapply Hf; [left|..]].
    intros ???? ; apply Hf. by right.
Qed.

Lemma well_formed_barcode_errors u0 keys msg result :
  u0 ∈ sodar_uuid <$> libs → (∀ k, k ∈ keys → k ∈ report_fields) →
  well_formed_report libs result →
  well_formed_report libs
    (fold_left (λ r key, add_error u0 key msg r) keys result).
Proof.
  intros Hu0. revert result.
  induction keys as [|k keys IH]; intros result Hk Hwf; [done|].
  simpl. apply IH; [intros ? ?; apply Hk; by right|].
  apply well_formed_add_error; [done | apply Hk; left | done].
Qed.
End report_shape.

(** For every flow cell, also one whose libraries share a UUID, the
    sample-sheet checker raises no [KeyError] and its report is well
    formed: the keys are UUIDs of libraries of the flow cell, no key
    occurs twice, every library listed has at least one of the fields
    "name", "lane", "barcode" and "barcode2", and every field listed has
    at least one message. *)
Theorem sample_sheet_report_well_formed (pretty_range : list Z → string)
  (self : FlowCell) :
  ∃ result,
    get_sample_sheet_errors pretty_range self = Some result
    ∧ well_formed_report (libraries self) result.
Proof.
  destruct (sample_sheet_fields pretty_range self) as (result & Hres & _).
  exists result. split; [done|].
  unfold get_sample_sheet_errors in Hres.
  set (st := gather pretty_range (num_lanes self) (libraries self)) in *.
  destruct (foldM (report_name pretty_range (g_by_uuid st)) _ _)
    as [r2|] eqn:Hr2; [|done].
  destruct (barcode_bad_lanes _ _) as [bad|] eqn:Hbad; [|done].
  assert (well_formed_report (libraries self) (g_result st)) as Hwf1.
  { unfold st. rewrite g_result_eq. apply well_formed_first_loop; [done|].
    split; [constructor|]. by intros ?? ?%elem_of_nil. }
  assert (well_formed_report (libraries self) r2) as Hwf2.
  { eapply (foldM_invariant (well_formed_report (libraries self)));
      [|exact Hwf1|exact Hr2].
    intros r [u lanes] r' Hin Hr. unfold report_name.
    destruct (dget u (g_by_uuid st)) as [library|] eqn:Hlib; [|done].
    intros [= <-]. apply by_uuid_Some in Hlib as [Hl <-].
    apply well_formed_add_error;
      [by apply list_elem_of_fmap_2 | set_solver | done]. }
  eapply (foldM_invariant (well_formed_report (libraries self)));
    [|exact Hwf2|exact Hres].
  intros r [u lanes] r' Hin Hr. unfold report_barcode.
  destruct (dget u (g_by_uuid st)) as [library|] eqn:Hlib; [|done].
  intros [= <-]. apply by_uuid_Some in Hlib as [Hl <-].
  apply well_formed_barcode_errors; [by apply list_elem_of_fmap_2 | | done].
  intros k Hk%elem_of_barcode_keys. unfold report_fields. set_solver.
Qed.

(** ** Lanes listed more than once *)

Lemma named_on_app l1 l2 k :
  named_on (l1 ++ l2) k = named_on l1 k ++ named_on l2 k.
Proof.
  unfold named_on, lane_events. by rewrite bind_app, filter_app, fmap_app.
Qed.

Lemma length_lane_events_one library lane (lanes : list Z) :
  length (filter (λ e, name_key e = (lane, name library))
            ((λ no : Z, (no, library)) <$> lanes))
  = length (filter (λ no, no = lane) lanes).
Proof.
  induction lanes as [|no lanes IH]; [done|].
  rewrite fmap_cons, !filter_cons. unfold name_key at 1. cbn [fst snd].
  destruct (decide (no = lane)) as [->|Hne].
  - rewrite decide_True by done. cbn [length]. by rewrite IH.
  - rewrite decide_False by (by intros [= ?]). done.
Qed.

Lemma length_named_on_one library lane :
  length (named_on [library] (lane, name library))
  = length (filter (λ no, no = lane) (lane_numbers library)).
Proof.
  unfold named_on, lane_events. rewrite length_fmap.
  cbn [mbind list_bind]. rewrite app_nil_r.
  apply length_lane_events_one.
Qed.

Lemma named_on_nonempty libs lane nm :
  named_on libs (lane, nm) ≠ []
  ↔ ∃ other, other ∈ libs ∧ lane ∈ lane_numbers other ∧ name other = nm.
Proof.
  split.
  - destruct (named_on libs (lane, nm)) as [|other ls] eqn:Hn; [done|].
    intros _. exists other. apply elem_of_named_on. rewrite Hn. left.
  - intros (other & Hother) Hnil.
    apply elem_of_named_on in Hother. rewrite Hnil in Hother.
    by apply elem_of_nil in Hother.
Qed.

Lemma listed_lane_count library lane :
  lane ∈ lane_numbers library →
  (0 < length (filter (λ no, no = lane) (lane_numbers library)))%nat.
Proof.
  intros Hin.
  assert (lane ∈ filter (λ no, no = lane) (lane_numbers library)) as Hf
    by (by apply list_elem_of_filter).
  destruct (filter _ _); [by apply elem_of_nil in Hf | simpl; lia].
Qed.

Section repeated_lanes.
Variable pretty_range : list Z → string.
Variable n_lanes : Z.
Variable libs : list Library.
Hypothesis Huuid : NoDup (sodar_uuid <$> libs).

Lemma named_on_length_ne_1 library lane :
  library ∈ libs → lane ∈ lane_numbers library →
  length (named_on libs (lane, name library)) ≠ 1%nat
  ↔ name_clash_on libs library lane
    ∨ (1 < length (filter (λ no, no = lane) (lane_numbers library)))%nat.
Proof.
  intros Hin Hlane.
  destruct (list_elem_of_split _ _ Hin) as (l1 & l2 & Hsplit).
  pose proof (listed_lane_count library lane Hlane) as Hc.
  assert (length (named_on libs (lane, name library))
          = (length (named_on l1 (lane, name library))
             + length (filter (λ no, no = lane) (lane_numbers library))
             + length (named_on l2 (lane, name library)))%nat) as ->.
  { rewrite Hsplit, (named_on_app l1), length_app.
    change (library :: l2) with ([library] ++ l2).
    rewrite named_on_app, length_app, length_named_on_one. lia. }
  assert (∀ other, other ∈ l1 ∨ other ∈ l2
                   ↔ other ∈ libs ∧ sodar_uuid other ≠ sodar_uuid library)
    as Hother.
  { intros other. rewrite Hsplit in Huuid |- *.
    rewrite fmap_app, fmap_cons in Huuid.
    apply NoDup_app in Huuid as (_ & Hl1 & [Hl2 _]%NoDup_cons).
    rewrite elem_of_app, elem_of_cons. split.
    - intros [H1|H2]; (split; [tauto|]); intros Heq.
      + apply (Hl1 (sodar_uuid other)); [by apply list_elem_of_fmap_2|].
        rewrite Heq. left.
      + apply Hl2. rewrite <- Heq. by apply list_elem_of_fmap_2.
    - intros [[H1|[->|H2]] Hne]; tauto. }
  assert (name_clash_on libs library lane
          ↔ named_on l1 (lane, name library) ≠ []
            ∨ named_on l2 (lane, name library) ≠ []) as ->.
  { rewrite !named_on_nonempty. unfold name_clash_on. split.
    - intros (_ & other & Ho & Hne & Hname & Hl).
      destruct (proj2 (Hother other)) as [H1|H2]; [done| |].
      + left. by exists other.
      + right. by exists other.
    - intros [(other & H1 & ? & ?)|(other & H2 & ? & ?)]; (split; [done|]);
        exists other; (destruct (proj1 (Hother other)) as [? ?];
                       [tauto|done]). }
  split.
  - intros Hne. destruct (named_on l1 _); [|by left; left].
    destruct (named_on l2 _); [|by left; right]. right. simpl in Hne. lia.
  - intros [[H1|H2]|Hc'].
    + destruct (named_on l1 _); [done|]. simpl. lia.
    + destruct (named_on l2 _); [done|]. simpl. lia.
    + lia.
Qed.

(** A lane is among the lanes the second loop collects for a library
    exactly when the library lists the lane and either another library
    with the same name is on the lane or the library lists the lane
    more than once. *)
Lemma elem_of_name_lanes_repeated library lane :
  library ∈ libs →
  lane ∈ name_lanes pretty_range n_lanes libs (sodar_uuid library)
  ↔ lane ∈ lane_numbers library
    ∧ (name_clash_on libs library lane
       ∨ (1 < length (filter (λ no, no = lane) (lane_numbers library)))%nat).
Proof.
  intros Hin. unfold name_lanes. rewrite list_elem_of_fmap. split.
  - intros ([u l] & -> & [Hu Hm]%list_elem_of_filter). simpl in *.
    apply elem_of_name_marks in Hm as (nm & l' & _ & Hlen & Hl' & Heq).
    pose proof Hl' as (? & ? & <-)%elem_of_named_on.
    assert (l' = library) as ->
      by (apply (NoDup_fmap_eq sodar_uuid libs); [done..|congruence]).
    split; [done|]. by apply named_on_length_ne_1.
  - intros [Hlane Hclash]. exists (sodar_uuid library, lane). split; [done|].
    apply list_elem_of_filter. split; [done|].
    apply elem_of_name_marks. exists (name library), library.
    assert (library ∈ named_on libs (lane, name library)) as Hmem
      by (by apply elem_of_named_on).
    split_and!; try done.
    + intros Hnil. rewrite Hnil in Hmem. by apply elem_of_nil in Hmem.
    + by apply named_on_length_ne_1.
Qed.
End repeated_lanes.

(** With distinct UUIDs, whatever the lane lists: the "name" entry of a
    library is the message about the characters of its name, when the
    pattern does not match, followed by one uniqueness message when the
    library has a lane on which another library has its name or which
    it lists more than once; the message is built from exactly these
    lanes.  So a library that lists a lane twice is reported as not
    unique on that lane even when it is alone on the flow cell. *)
Theorem name_errors_with_repeated_lanes (pretty_range : list Z → string)
  (self : FlowCell) (library : Library) :
  NoDup (sodar_uuid <$> libraries self) → library ∈ libraries self →
  ∃ result lanes,
    get_sample_sheet_errors pretty_range self = Some result
    ∧ (∀ lane,
         lane ∈ lanes
         ↔ lane ∈ lane_numbers library
           ∧ (name_clash_on (libraries self) library lane
              ∨ (1 < length (filter (λ no, no = lane)
                               (lane_numbers library)))%nat))
    ∧ default [] (field_of (sodar_uuid library) "name" result)
      = (if name_re_match (name library) then [] else [invalid_name_msg])
        ++ match lanes with
           | [] => []
           | _ => [name_msg pretty_range (name library) lanes]
           end.
Proof.
  intros Huuid Hin.
  destruct (name_field pretty_range self library Huuid Hin)
    as (result & Hres & Hname).
  exists result,
    (name_lanes pretty_range (num_lanes self) (libraries self)
       (sodar_uuid library)).
  split_and!; [done | | ].
  - intros lane. by apply elem_of_name_lanes_repeated.
  - rewrite Hname. by destruct (name_lanes _ _ _ _).
Qed.

Lemma name_errors_with_repeated_lanes_witness :
  let library := lib 1 "Lib1" None None [3; 3] in
  let self := cell 8 [library] [] in
  NoDup (sodar_uuid <$> libraries self) ∧ library ∈ libraries self
  ∧ ∃ result lanes,
      get_sample_sheet_errors page_range self = Some result
      ∧ 3 ∈ lanes
      ∧ default [] (field_of 1%N "name" result)
        = match lanes with
          | [] => []
          | _ => [name_msg page_range "Lib1" lanes]
          end.
Proof.
  intros library self.
  assert (NoDup (sodar_uuid <$> libraries self)) as Huuid by by_compute.
  assert (library ∈ libraries self) as Hin by left.
  split_and!; [done..|].
  destruct (name_errors_with_repeated_lanes page_range self library Huuid Hin)
    as (result & lanes & Hres & Hiff & Hname).
  exists result, lanes. split_and!; [done | | exact Hname].
  apply Hiff. split; [left|]. right. vm_compute. lia.
Defined.

(** ** The number of lanes *)

Section lanes_only.
Variable pretty_range : list Z → string.

Lemma checked_field_lanes n1 n2 library f o :
  f ≠ "lane" →
  checked_field pretty_range n1 library f o
  = checked_field pretty_range n2 library f o.
Proof.
  intros Hf. unfold checked_field. by rewrite !(decide_False _ _ Hf).
Qed.

Lemma first_loop_lanes n1 n2 u f libs r1 r2 :
  f ≠ "lane" → field_of u f r1 = field_of u f r2 →
  field_of u f (fold_left (check_library pretty_range n1) libs r1)
  = field_of u f (fold_left (check_library pretty_range n2) libs r2).
Proof.
  intros Hf. revert r1 r2.
  induction libs as [|library libs IH]; intros r1 r2 Hr; [done|].
  simpl. apply IH. rewrite !field_of_check_library.
  case_decide; [|done]. rewrite Hr. by apply checked_field_lanes.
Qed.

Lemma gather_lanes n1 n2 libs :
  let st1 := gather pretty_range n1 libs in
  let st2 := gather pretty_range n2 libs in
  g_by_uuid st1 = g_by_uuid st2 ∧ g_by_name st1 = g_by_name st2
  ∧ g_by_barcode st1 = g_by_barcode st2
  ∧ g_by_barcode2 st1 = g_by_barcode2 st2.
Proof. unfold gather. by rewrite !gather_fold. Qed.

(** The number of lanes of the flow cell matters for the "lane" entries
    only: two flow cells with the same libraries get the same "name",
    "barcode" and "barcode2" entries, whatever their numbers of
    lanes. *)
Theorem num_lanes_only_in_lane_errors (self1 self2 : FlowCell) :
  libraries self1 = libraries self2 →
  ∃ result1 result2,
    get_sample_sheet_errors pretty_range self1 = Some result1
    ∧ get_sample_sheet_errors pretty_range self2 = Some result2
    ∧ ∀ u f, f ≠ "lane" → field_of u f result1 = field_of u f result2.
Proof.
  intros Hlibs.
  destruct (sample_sheet_fields pretty_range self1) as (r1 & Hr1 & Hf1).
  destruct (sample_sheet_fields pretty_range self2) as (r2 & Hr2 & Hf2).
  exists r1, r2. split_and!; [done..|]. intros u f Hf.
  rewrite Hf1, Hf2. cbv zeta. rewrite <- Hlibs.
  destruct (gather_lanes (num_lanes self1) (num_lanes self2)
              (libraries self1)) as (Hu & Hn & Hb & Hb2).
  unfold barcode_bad. rewrite <- Hu, <- Hn, <- Hb, <- Hb2.
  rewrite !g_result_eq.
  by rewrite (first_loop_lanes (num_lanes self1) (num_lanes self2) u f
                (libraries self1) [] []).
Qed.
End lanes_only.

Lemma num_lanes_only_in_lane_errors_witness :
  let libs := [lib 1 "Lib1" (Some "AAAA") None [3; 9];
               lib 2 "Lib1" (Some "AAAA") None [9]] in
  ∃ result1 result2,
    get_sample_sheet_errors page_range (cell 8 libs []) = Some result1
    ∧ get_sample_sheet_errors page_range (cell 12 libs []) = Some result2
    ∧ field_of 1%N "name" result1 = field_of 1%N "name" result2
    ∧ field_of 1%N "barcode" result1 = field_of 1%N "barcode" result2.
Proof.
  intros libs.
  destruct (num_lanes_only_in_lane_errors page_range (cell 8 libs [])
              (cell 12 libs []) eq_refl) as (r1 & r2 & H1 & H2 & Hf).
  exists r1, r2. split_and!; [done..| |]; by apply Hf.
Defined.

(** ** Barcode clashes, as the code groups them *)

Lemma barcode_clash_iff_witness :
  let a := lib 1 "LibA" (Some "AAAA") (Some "CCCC") [1; 2] in
  let b := lib 2 "LibB" (Some "AAAA") (Some "CCCC") [2] in
  let c := lib 3 "LibC" (Some "AAAA") (Some "GGGG") [1; 2] in
  let self := cell 8 [a; b; c] [] in
  NoDup (sodar_uuid <$> libraries self) ∧ c ∈ libraries self
  ∧ ∃ result,
      get_sample_sheet_errors page_range self = Some result
      ∧ field_of 3%N "barcode" result = None
      ∧ field_of 3%N "barcode2" result = None.
Proof.
  intros a b c self.
  assert (NoDup (sodar_uuid <$> libraries self)) as Huuid by by_compute.
  assert (c ∈ libraries self) as Hin by (right; right; left).
  split_and!; [done..|].
  destruct (barcode_clash_iff page_range self c Huuid Hin)
    as (result & Hres & Hiff).
  exists result. split; [done|].
  assert (¬ ∃ lane, barcode_clash_on (libraries self) c lane) as Hno.
  { intros (lane & _ & other & Ho & Hne & _ & _ & H2).
    apply list_elem_of_In in Ho. simpl in Ho.
    destruct Ho as [<-|[<-|[<-|[]]]]; done. }
  destruct (field_of 3%N "barcode" result) as [m1|] eqn:H1;
    [destruct Hno; apply Hiff; left; exists m1; exact H1|].
  destruct (field_of 3%N "barcode2" result) as [m2|] eqn:H2;
    [destruct Hno; apply Hiff; right; exists m2; exact H2|].
  done.
Defined.

(** ** Index errors and the libraries of the sheet *)



(** Libraries added to the sample sheet never add an index error: a key
    of the report of the larger sheet is a key of the report of the
    smaller one. *)
Theorem more_libraries_fewer_index_errors (self1 self2 : FlowCell)
  (k : Z * Z * string) :
  index_histograms self1 = index_histograms self2 →
  (∀ library, library ∈ libraries self1 → library ∈ libraries self2) →
  is_Some (dget k (get_index_errors self2)) →
  is_Some (dget k (get_index_errors self1)).
Proof.
  intros Hh Hsub [v Hv]. unfold get_index_errors in *.
  apply dget_index_errors in Hv
    as [(hist & Hhist & Hl & Hr & Hs & HN & Hout) _].
  eexists. apply dget_index_errors. split; [|done].
  exists hist. rewrite Hh. split; [done|]. unfold flags.
  split_and!; try done. intros Hin. apply Hout.
  apply elem_of_expected_seqs_of in Hin; [|by apply all_N_false_nonempty].
  destruct Hin as (library & ? & ? & ?).
  apply elem_of_expected_seqs_of; [by apply all_N_false_nonempty|].
  exists library. split_and!; try done. by apply Hsub.
Qed.

Lemma more_libraries_fewer_index_errors_witness :
  let hist := {| lane := 1; index_read_no := 0; sample_size := 8;
                 histogram := [("AAAA", 5); ("TTTT", 3)] |} in
  let self1 := cell 8 [] [hist] in
  let self2 := cell 8 [lib 1 "LibA" (Some "AAAA") None [1]] [hist] in
  is_Some (dget (1, 0, "TTTT") (get_index_errors self2))
  ∧ is_Some (dget (1, 0, "TTTT") (get_index_errors self1)).
Proof.
  intros hist self1 self2.
  assert (is_Some (dget (1, 0, "TTTT") (get_index_errors self2))) as H2
    by (vm_compute; eauto).
  split; [done|].
  apply (more_libraries_fewer_index_errors self1 self2); [reflexivity | | done].
  intros library Hin. by apply elem_of_nil in Hin.
Defined.

(** ** Cached reports and changed data *)

Lemma cached_same_pk {R : Type} (body : FlowCell → option R)
  (self self' : FlowCell) cache :
  pk self' = pk self →
  is_Some (LruCache.cached body self cache).1 →
  (LruCache.cached body self' (LruCache.cached body self cache).2).1
  = (LruCache.cached body self cache).1.
Proof.
  intros Hpk. unfold LruCache.cached. rewrite Hpk.
  destruct (dget (pk self) cache) as [r|] eqn:Hc; simpl.
  - intros _. by rewrite decide_True.
  - destruct (body self) as [r|] eqn:Hb; simpl; [|by intros [? ?]].
    intros _. by rewrite decide_True.
Qed.

(** Once a checker has been called on a flow cell, the next call on a
    flow cell with the same primary key returns the report of the first
    call, whatever the number of lanes, the libraries and the histograms
    of the flow cell are by then: the report is not computed again when
    the data of the flow cell change. *)
Theorem cached_report_outlives_change (pretty_range : list Z → string)
  (w : world) (self self' : FlowCell) :
  pk self' = pk self →
  (call_get_index_errors self' (call_get_index_errors self w).2).1
  = (call_get_index_errors self w).1
  ∧ (call_get_sample_sheet_errors pretty_range self'
       (call_get_sample_sheet_errors pretty_range self w).2).1
    = (call_get_sample_sheet_errors pretty_range self w).1.
Proof.
  intros Hpk. unfold call_get_index_errors, call_get_sample_sheet_errors.
  split.
  - pose proof (cached_same_pk (λ self, Some (get_index_errors self))
                  self self' (w_index_cache w) Hpk) as H.
    destruct (LruCache.cached _ self (w_index_cache w)) as [r c] eqn:Hc.
    simpl in *.
    destruct (LruCache.cached _ self' c) as [r' c'] eqn:Hc'. simpl in *.
    apply H. unfold LruCache.cached in Hc.
    destruct (dget (pk self) (w_index_cache w)); by simplify_eq.
  - pose proof (cached_same_pk (get_sample_sheet_errors pretty_range)
                  self self' (w_sheet_cache w) Hpk) as H.
    destruct (LruCache.cached _ self (w_sheet_cache w)) as [r c] eqn:Hc.
    simpl in *.
    destruct (LruCache.cached _ self' c) as [r' c'] eqn:Hc'. simpl in *.
    apply H. unfold LruCache.cached in Hc.
    destruct (dget (pk self) (w_sheet_cache w)); [by simplify_eq|].
    destruct (get_sample_sheet_errors_total pretty_range self) as [x Hx].
    rewrite Hx in Hc. by simplify_eq.
Qed.

Lemma cached_report_outlives_change_witness :
  let before := cell 8 [lib 1 "Lib 1" None None [1]] [] in
  let after := cell 8 [lib 1 "Lib1" None None [1]] [] in
  let w := {| w_cells := [before]; w_index_cache := [];
              w_sheet_cache := [] |} in
  pk after = pk before
  ∧ get_sample_sheet_errors page_range after = Some []
  ∧ (call_get_sample_sheet_errors page_range after
       (call_get_sample_sheet_errors page_range before w).2).1
    = Some [(1%N, [("name", [invalid_name_msg])])].
Proof.
  intros before after w. split_and!; [reflexivity..|].
  destruct (cached_report_outlives_change page_range w before after eq_refl)
    as [_ ->]. reflexivity.
Defined.

(** ** Full names of flow cells *)

Lemma pretty_N_go_leading x s :
  (0 < x)%N →
  ∃ c t, pretty_N_go x s = String c t ∧ c ≠ "0"%char.
Proof.
  revert s. induction (N.lt_wf_0 x) as [x _ IH]; intros s Hx.
  rewrite pretty_N_go_step by done.
  destruct (decide (x `div` 10 = 0)%N) as [Hd|Hd].
  - rewrite Hd, pretty_N_go_0. eexists _, _. split; [done|].
    apply N.div_small_iff in Hd; [|done].
    rewrite N.mod_small by done.
    assert (x = 1 ∨ x = 2 ∨ x = 3 ∨ x = 4 ∨ x = 5 ∨ x = 6
            ∨ x = 7 ∨ x = 8 ∨ x = 9)%N by lia; naive_solver.
  - apply IH; [apply N.div_lt; lia | by apply N.neq_0_lt_0].
Qed.

Lemma pretty_N_leading (n : N) :
  n ≠ 0%N → ∃ c t, pretty n = String c t ∧ c ≠ "0"%char.
Proof.
  intros Hn. unfold pretty, pretty_N. rewrite decide_False by done.
  apply pretty_N_go_leading. lia.
Qed.

Lemma strip_zeros_zeros k s : strip_zeros (zeros k +:+ s) = strip_zeros s.
Proof. induction k as [|k IH]; [done|]. simpl. exact IH. Qed.

Lemma strip_zeros_padded width (n : N) :
  strip_zeros (zero_padded width n) = if decide (n = 0%N) then "" else pretty n.
Proof.
  unfold zero_padded. rewrite strip_zeros_zeros. case_decide as Hn.
  - by subst n.
  - destruct (pretty_N_leading n Hn) as (c & t & -> & Hc). simpl.
    by apply Ascii.eqb_neq in Hc as ->.
Qed.

Lemma zero_padded_inj width : Inj (=) (=) (zero_padded width).
Proof.
  intros n m Heq. apply (f_equal strip_zeros) in Heq.
  rewrite !strip_zeros_padded in Heq.
  destruct (decide (n = 0%N)) as [->|Hn], (decide (m = 0%N)) as [->|Hm];
    try done.
  - by destruct (pretty_N_leading m Hm) as (c & t & Hp & _); rewrite Hp in Heq.
  - by destruct (pretty_N_leading n Hn) as (c & t & Hp & _); rewrite Hp in Heq.
  - by apply (inj pretty).
Qed.

Lemma string_length_app (a b : string) :
  String.length (a +:+ b) = (String.length a + String.length b)%nat.
Proof. induction a as [|c a IH]; simpl; [done | by rewrite IH]. Qed.

Lemma length_zeros k : String.length (zeros k) = k.
Proof. induction k; simpl; congruence. Qed.

Lemma length_zero_padded width n :
  (width ≤ String.length (zero_padded width n))%nat.
Proof.
  unfold zero_padded. rewrite string_length_app, length_zeros. lia.
Qed.

Lemma append_inj_length (a b s t : string) :
  String.length a = String.length b → a +:+ s = b +:+ t → a = b ∧ s = t.
Proof.
  revert b. induction a as [|c a IH]; intros [|c' b]; simpl; try done.
  intros [= Hl] [= -> Happ]. by destruct (IH b Hl Happ) as [-> ->].
Qed.

Lemma append_inj_right (a b s : string) : a +:+ s = b +:+ s → a = b.
Proof.
  intros Heq. destruct (append_inj_length a b s s) as [? _]; [|done..].
  apply (f_equal String.length) in Heq.
  rewrite !string_length_app in Heq. lia.
Qed.

Lemma append_inj_left (s a b : string) : s +:+ a = s +:+ b → a = b.
Proof.
  intros Heq. by destruct (append_inj_length s s a b eq_refl Heq) as [_ ?].
Qed.

Lemma shown_run_number_eq self :
  match run_number self with
  | None | Some 0%N => 0%N
  | Some n => n
  end = shown_run_number self.
Proof. unfold shown_run_number. by destruct (run_number self) as [[|p]|]. Qed.

Lemma values_truth_not_all_false self machine :
  forallb negb (values_truth self machine) = false.
Proof.
  unfold values_truth. simpl. by destruct (bool_decide _).
Qed.

Lemma get_full_name_Some self name :
  get_full_name self = Some name →
  ∃ machine,
    sequencing_machine self = Some machine
    ∧ name
      = match run_date self with
        | None => ""
        | Some d => strftime_ymd d
        end
        +:+ "_" +:+ SequencingMachine.vendor_id machine
        +:+ "_" +:+ zero_padded 4 (shown_run_number self)
        +:+ "_" +:+ slot self +:+ "_" +:+ vendor_id self
        +:+ "_" +:+ str_of_option (label self).
Proof.
  unfold get_full_name.
  destruct (sequencing_machine self) as [machine|]; [|done].
  rewrite values_truth_not_all_false. intros [= <-]. exists machine.
  split; [done|]. by rewrite shown_run_number_eq.
Qed.

(** A full name is never empty.  Reading the sequencing machine of a
    flow cell that has none raises, and a machine that is set is true,
    so the values are never all false: the branch that returns the
    empty string is not taken.  Every full name has the five
    separators and at least four digits of the run number. *)
Theorem get_full_name_never_empty (self : FlowCellRun) :
  (get_full_name self = None ↔ sequencing_machine self = None)
  ∧ (∀ name,
       get_full_name self = Some name →
       name ≠ "" ∧ (9 ≤ String.length name)%nat
       ∧ FlowCell_str self = Some ("FlowCell " +:+ name)).
Proof.
  split.
  - unfold get_full_name.
    destruct (sequencing_machine self) as [machine|]; [|done].
    rewrite values_truth_not_all_false. by split.
  - intros name Hname. unfold FlowCell_str. rewrite Hname. simpl.
    apply get_full_name_Some in Hname as (machine & _ & ->).
    assert (9 ≤ String.length
                  (match run_date self with
                   | None => ""
                   | Some d => strftime_ymd d
                   end
                   +:+ "_" +:+ SequencingMachine.vendor_id machine
                   +:+ "_" +:+ zero_padded 4 (shown_run_number self)
                   +:+ "_" +:+ slot self +:+ "_" +:+ vendor_id self
                   +:+ "_" +:+ str_of_option (label self)))%nat as Hlen.
    { rewrite !string_length_app. simpl.
      pose proof (length_zero_padded 4 (shown_run_number self)). lia. }
    split_and!; [|done..]. intros Heq. rewrite Heq in Hlen.
    simpl in Hlen. lia.
Qed.

(** Flow cells that agree on run date, sequencing machine, slot, vendor
    id and label, and have the same full name, have the same run
    number, a missing run number counting as 0: the full name tells
    runs of one machine and day apart. *)
Theorem full_name_tells_run_number (self1 self2 : FlowCellRun)
  (name : string) :
  run_date self1 = run_date self2 →
  sequencing_machine self1 = sequencing_machine self2 →
  slot self1 = slot self2 → vendor_id self1 = vendor_id self2 →
  label self1 = label self2 →
  get_full_name self1 = Some name → get_full_name self2 = Some name →
  shown_run_number self1 = shown_run_number self2.
Proof.
  intros Hd Hm Hs Hv Hl H1 H2.
  apply get_full_name_Some in H1 as (machine1 & Hm1 & Hname).
  apply get_full_name_Some in H2 as (machine2 & Hm2 & ->).
  assert (machine2 = machine1) as -> by congruence.
  rewrite Hd, Hs, Hv, Hl in Hname.
  do 4 apply append_inj_left in Hname.
  apply append_inj_right in Hname. by apply zero_padded_inj in Hname.
Qed.

Lemma full_name_tells_run_number_witness :
  let machine := {| SequencingMachine.vendor_id := "NB501" |} in
  let run (n : option N) :=
    {| run_date := Some {| year := 2019; month := 2; day := 19 |};
       sequencing_machine := Some machine; run_number := n; slot := "A";
       vendor_id := "HXXX"; label := None |} in
  get_full_name (run None) = Some "190219_NB501_0000_A_HXXX_None"
  ∧ get_full_name (run (Some 0%N)) = Some "190219_NB501_0000_A_HXXX_None"
  ∧ shown_run_number (run None) = shown_run_number (run (Some 0%N)).
Proof.
  intros machine run. split_and!; [reflexivity..|].
  by apply (full_name_tells_run_number (run None) (run (Some 0%N))
              "190219_NB501_0000_A_HXXX_None").
Defined.

(** ** Barcode clashes come in pairs *)

Section clash_pairs.
Variable pretty_range : list Z → string.

Lemma barcode_entry_iff_lanes (self : FlowCell) (library : Library) :
  NoDup (sodar_uuid <$> libraries self) → library ∈ libraries self →
  ∃ result,
    get_sample_sheet_errors pretty_range self = Some result
    ∧ (is_Some (field_of (sodar_uuid library) "barcode" result)
       ∨ is_Some (field_of (sodar_uuid library) "barcode2" result)
       ↔ barcode_lanes pretty_range (num_lanes self) (libraries self)
           (sodar_uuid library) ≠ []).
Proof.
  intros Huuid Hin.
  destruct (barcode_field pretty_range self library "barcode" Huuid Hin)
    as (result & Hres & Hb1); [by left|].
  destruct (barcode_field pretty_range self library "barcode2" Huuid Hin)
    as (result' & Hres' & Hb2); [by right|].
  assert (result' = result) as -> by congruence.
  exists result. split; [done|]. rewrite Hb1, Hb2.
  destruct (barcode_lanes _ _ _ _) as [|lane lanes].
  - split; [by intros [[? ?]|[? ?]] | done].
  - split; [done|]. intros _. unfold barcode_keys.
    destruct (truthy (get_barcode_seq library)),
      (truthy (get_barcode_seq2 library)); simpl;
      repeat case_decide; set_solver.
Qed.

(** No library has a barcode error alone: when a library has an entry
    under "barcode" or "barcode2", another library of the flow cell has
    one too. *)
Theorem barcode_clash_never_alone (self : FlowCell) (library : Library) :
  NoDup (sodar_uuid <$> libraries self) → library ∈ libraries self →
  ∃ result,
    get_sample_sheet_errors pretty_range self = Some result
    ∧ (is_Some (field_of (sodar_uuid library) "barcode" result)
       ∨ is_Some (field_of (sodar_uuid library) "barcode2" result) →
       ∃ other,
         other ∈ libraries self ∧ sodar_uuid other ≠ sodar_uuid library
         ∧ (is_Some (field_of (sodar_uuid other) "barcode" result)
            ∨ is_Some (field_of (sodar_uuid other) "barcode2" result))).
Proof.
  intros Huuid Hin.
  destruct (barcode_entry_iff_lanes self library Huuid Hin)
    as (result & Hres & Hiff).
  exists result. split; [done|]. intros Hentry%Hiff.
  destruct (barcode_lanes _ _ _ _) as [|lane lanes] eqn:Hl; [done|].
  assert (barcode_clash_on (libraries self) library lane)
    as (Hlane & other & Ho & Hne & Hlo & Hs1 & Hs2).
  { apply (elem_of_barcode_lanes pretty_range (num_lanes self)); [done..|].
    rewrite Hl. left. }
  exists other. split_and!; [done..|].
  destruct (barcode_entry_iff_lanes self other Huuid Ho)
    as (result' & Hres' & Hiff').
  assert (result' = result) as -> by congruence.
  apply Hiff'. intros Hnil.
  assert (lane ∈ barcode_lanes pretty_range (num_lanes self)
            (libraries self) (sodar_uuid other)) as Hmem.
  { apply elem_of_barcode_lanes; [done..|]. split; [done|].
    exists library. by split_and!. }
  rewrite Hnil in Hmem. by apply elem_of_nil in Hmem.
Qed.
End clash_pairs.

Lemma barcode_clash_never_alone_witness :
  let a := lib 1 "LibA" (Some "AAAA") None [4] in
  let b := lib 2 "LibB" (Some "AAAA") None [4; 5] in
  let self := cell 8 [a; b] [] in
  NoDup (sodar_uuid <$> libraries self) ∧ a ∈ libraries self
  ∧ ∃ result,
      get_sample_sheet_errors page_range self = Some result
      ∧ is_Some (field_of 1%N "barcode" result)
      ∧ ∃ other,
          other ∈ libraries self ∧ sodar_uuid other ≠ 1%N
          ∧ (is_Some (field_of (sodar_uuid other) "barcode" result)
             ∨ is_Some (field_of (sodar_uuid other) "barcode2" result)).
Proof.
  intros a b self.
  assert (NoDup (sodar_uuid <$> libraries self)) as Huuid by by_compute.
  assert (a ∈ libraries self) as Hin by left.
  split_and!; [done..|].
  destruct (barcode_clash_never_alone page_range self a Huuid Hin)
    as (result & Hres & Hpair).
  exists result.
  assert (is_Some (field_of 1%N "barcode" result)) as H1.
  { vm_compute in Hres. injection Hres as <-. vm_compute. eauto. }
  split_and!; [done..|]. apply Hpair. by left.
Defined.

(** ** Index errors lane by lane *)

Lemma option_eq_Some {A : Type} (o1 o2 : option A) :
  (∀ v, o1 = Some v ↔ o2 = Some v) → o1 = o2.
Proof.
  intros H. destruct o1 as [v|].
  - symmetry. by apply H.
  - destruct o2 as [v|]; [|done]. by apply H.
Qed.

(** The index errors of a lane depend on the libraries on that lane
    only: flow cells with the same histograms and the same libraries on
    a lane have the same entries for that lane, whatever libraries they
    have on other lanes. *)
Theorem index_errors_lane_local (self1 self2 : FlowCell) (l r : Z)
  (s : string) :
  index_histograms self1 = index_histograms self2 →
  libraries_on l (libraries self1) = libraries_on l (libraries self2) →
  dget (l, r, s) (get_index_errors self1)
  = dget (l, r, s) (get_index_errors self2).
Proof.
  intros Hh Hl. unfold get_index_errors. rewrite <- Hh.
  apply option_eq_Some. intros v. rewrite !dget_index_errors.
  assert (∀ hist, flags (libraries self1) hist (l, r, s)
                  ↔ flags (libraries self2) hist (l, r, s)) as Hflags.
  { intros hist. unfold flags, expected_seqs_of. simpl.
    split; intros (Hlane & ?); (split; [done|]); rewrite Hlane in *;
      [rewrite <- Hl | rewrite Hl]; done. }
  split; intros [(hist & ? & ?) ->]; (split; [|done]); exists hist;
    (split; [done|]); by apply Hflags.
Qed.

Lemma index_errors_lane_local_witness :
  let hist := {| lane := 1; index_read_no := 0; sample_size := 8;
                 histogram := [("AAAA", 5); ("TTTT", 3)] |} in
  let a := lib 1 "LibA" (Some "AAAA") None [1] in
  let self1 := cell 8 [a] [hist] in
  let self2 := cell 8 [a; lib 2 "LibB" (Some "TTTT") None [2]] [hist] in
  dget (1, 0, "TTTT") (get_index_errors self1)
  = dget (1, 0, "TTTT") (get_index_errors self2)
  ∧ is_Some (dget (1, 0, "TTTT") (get_index_errors self2)).
Proof.
  intros hist a self1 self2. split.
  - by apply index_errors_lane_local.
  - vm_compute. eauto.
Defined.
